(** * mitch: request dispatch, abort recovery and CDN asset streaming

    A shallow embedding of the Go package [mitch] (the server's [serve]
    function with its handler wrapper and route handlers, and the
    formatters of [formatters.go]), with the properties of its
    specification stated over it.

    Layout: the Go library functions the code calls, the data model, the
    formatters, the request context as a state-and-panic monad, the route
    handlers and the dispatch wrapper, then the theorems. *)

From Stdlib Require Import ZArith String Ascii List DecimalString DecimalPos DecimalZ.
From Stdlib.Strings Require Import Byte.
From stdpp Require Import gmap strings list fin_maps.

Set Warnings "-register-all".
Set Default Proof Using "Type".

Open Scope Z_scope.

(* ===================================================================== *)
(** * Go library functions used by the code *)
(* ===================================================================== *)

(** ** int64 arithmetic *)

(** The value of an int64 expression whose mathematical result is [z]. *)
Definition wrap64 (z : Z) : Z := (z + 2 ^ 63) mod 2 ^ 64 - 2 ^ 63.

Definition in_int64 (z : Z) : Prop := - 2 ^ 63 <= z < 2 ^ 63.

(** ** package strings *)

(** The byte [c] does not occur in [s]. *)
Definition no_byte (c : ascii) (s : string) : Prop :=
  Forall (λ x, x ≠ c) (list_ascii_of_string s).

(** [strings.Split(s, sep)] for a one-byte separator, the only form the code
    uses: the substrings between the separators, one more than there are
    separators ([Split("", sep)] is the one-element slice holding ""). *)
Fixpoint strings_Split (s : string) (sep : ascii) : list string :=
  match s with
  | EmptyString => [EmptyString]
  | String c r =>
      if Ascii.eqb c sep then EmptyString :: strings_Split r sep
      else match strings_Split r sep with
           | t :: ts => String c t :: ts
           | [] => [String c EmptyString]
           end
  end.

(** [s] without the leading [prefix], when it starts with it. *)
Fixpoint strip_prefix (prefix s : string) : option string :=
  match prefix, s with
  | EmptyString, _ => Some s
  | String p ps, String c cs => if Ascii.eqb p c then strip_prefix ps cs else None
  | String _ _, EmptyString => None
  end.

(** [strings.TrimPrefix(s, prefix)]: [s] unchanged when it does not start
    with [prefix]. *)
Definition strings_TrimPrefix (s prefix : string) : string :=
  match strip_prefix prefix s with
  | Some rest => rest
  | None => s
  end.

(** ** package strconv *)

(** [strconv.ParseInt(s, 10, 64)]: [None] stands for a non-nil error (bad
    syntax or a value out of the int64 range). An optional sign, then one or
    more decimal digits. *)
Definition strconv_ParseInt (s : string) : option Z :=
  let '(neg, digits) :=
    match s with
    | String c r =>
        if Ascii.eqb c "+" then (false, r)
        else if Ascii.eqb c "-" then (true, r)
        else (false, s)
    | EmptyString => (false, s)
    end in
  match NilZero.uint_of_string digits with
  | None => None
  | Some d =>
      let v := if neg then - Z.of_uint d else Z.of_uint d in
      if (- 2 ^ 63 <=? v) && (v <? 2 ^ 63) then Some v else None
  end.

(** ** package fmt *)

(** The verb [%d] on an integer. *)
Definition fmt_d (z : Z) : string := NilZero.string_of_int (Z.to_int z).

Definition dquote : ascii := "034".
Definition backslash : ascii := "092".

Definition hex_digit (n : N) : ascii :=
  ascii_of_N (if (n <? 10)%N then 48 + n else 87 + n).

(** One byte below 0x80 as [strconv.Quote] writes it inside the quotes. *)
Definition quote_byte (c : ascii) : string :=
  let n := N_of_ascii c in
  let esc (x : ascii) := String backslash (String x EmptyString) in
  if Ascii.eqb c dquote then esc dquote
  else if Ascii.eqb c backslash then esc backslash
  else if (32 <=? n)%N && (n <? 127)%N then String c EmptyString
  else if (n =? 7)%N then esc "a"%char
  else if (n =? 8)%N then esc "b"%char
  else if (n =? 12)%N then esc "f"%char
  else if (n =? 10)%N then esc "n"%char
  else if (n =? 13)%N then esc "r"%char
  else if (n =? 9)%N then esc "t"%char
  else if (n =? 11)%N then esc "v"%char
  else String backslash (String "x"%char (String (hex_digit (n / 16)) (String (hex_digit (n mod 16)) EmptyString))).

Definition is_ascii_string (s : string) : bool :=
  forallb (fun c => (N_of_ascii c <? 128)%N) (list_ascii_of_string s).

(** ** package net/textproto and net/http *)

Definition is_lower (c : ascii) : bool := let n := N_of_ascii c in (97 <=? n)%N && (n <=? 122)%N.
Definition is_upper (c : ascii) : bool := let n := N_of_ascii c in (65 <=? n)%N && (n <=? 90)%N.
Definition is_digit (c : ascii) : bool := let n := N_of_ascii c in (48 <=? n)%N && (n <=? 57)%N.
Definition to_upper (c : ascii) : ascii := if is_lower c then ascii_of_N (N_of_ascii c - 32) else c.
Definition to_lower (c : ascii) : ascii := if is_upper c then ascii_of_N (N_of_ascii c + 32) else c.

(** The bytes allowed in a header field name (an RFC 7230 token). *)
Definition validHeaderFieldByte (c : ascii) : bool :=
  is_lower c || is_upper c || is_digit c
  || existsb (Ascii.eqb c) (list_ascii_of_string "!#$%&'*+-.^_`|~").

(** Upper-case the first letter and every letter after a hyphen, lower-case
    the others. *)
Fixpoint canonical_from (upper : bool) (s : string) : string :=
  match s with
  | EmptyString => EmptyString
  | String c r =>
      String (if upper then to_upper c else to_lower c)
             (canonical_from (Ascii.eqb c "-"%char) r)
  end.

(** [textproto.CanonicalMIMEHeaderKey]: a key holding a byte that is not
    allowed in a field name is returned as it is. *)
Definition CanonicalMIMEHeaderKey (s : string) : string :=
  if forallb validHeaderFieldByte (list_ascii_of_string s)
  then canonical_from true s else s.

(** [http.Header], a [map[string][]string]. *)
Abbreviation Header := (gmap string (list string)).

(** [h.Set(key, value)] *)
Definition Header_Set (h : Header) (key value : string) : Header :=
  <[CanonicalMIMEHeaderKey key := [value]]> h.

(** [h.Get(key)]: the first value of the key, "" when there is none. *)
Definition Header_Get (h : Header) (key : string) : string :=
  match h !! CanonicalMIMEHeaderKey key with
  | Some (v :: _) => v
  | _ => EmptyString
  end.

(** ** package encoding/json, at the level of JSON documents *)

(** The Go values the handlers put into an [Any] ([map[string]interface{}]):
    a slice is [None] when nil. *)
Inductive value : Type :=
| VInt64 (z : Z)
| VString (s : string)
| VBool (b : bool)
| VMap (m : gmap string value)
| VSlice (s : option (list value)).

Abbreviation Any := (gmap string value).

Inductive json : Type :=
| JNull
| JBool (b : bool)
| JNumber (z : Z)
| JString (s : string)
| JArray (l : list json)
| JObject (m : gmap string json).

(** [json.Marshal]: a map becomes an object, a nil slice [null], any other
    slice an array. *)
Fixpoint Marshal (v : value) : json :=
  match v with
  | VInt64 z => JNumber z
  | VString s => JString s
  | VBool b => JBool b
  | VMap m => JObject (Marshal <$> m)
  | VSlice None => JNull
  | VSlice (Some l) => JArray (map Marshal l)
  end.

(** ** Slices *)

(** A [[]byte]: the elements in view and the rest of the backing array, up
    to the capacity. *)
Record bytes_slice : Type := {
  elems : list byte;
  spare : list byte;
}.

Definition len (d : bytes_slice) : Z := Z.of_nat (length (elems d)).
Definition cap (d : bytes_slice) : Z := Z.of_nat (length (elems d ++ spare d)).

(** [d[lo:hi]]: in range when [0 <= lo <= hi <= cap(d)]; [None] is the
    runtime panic otherwise. *)
Definition slice_bytes (d : bytes_slice) (lo hi : Z) : option bytes_slice :=
  if (0 <=? lo) && (lo <=? hi) && (hi <=? cap d) then
    let backing := elems d ++ spare d in
    Some {| elems := take (Z.to_nat (hi - lo)) (drop (Z.to_nat lo) backing);
            spare := drop (Z.to_nat hi) backing |}
  else None.

(** [append(s, x)] on a slice that is [None] when nil. *)
Definition go_append {A : Type} (s : option (list A)) (x : A) : option (list A) :=
  Some (default [] s ++ [x]).

Definition slice_elems {A : Type} (s : option (list A)) : list A := default [] s.


(* ===================================================================== *)
(** * Data model *)
(* ===================================================================== *)

(** Modelled from the spec: the entity structs User, Game, Upload and
    CDNFile, whose declarations are not in the sources at hand, with the
    fields the formatters and the handlers read. Identifiers and sizes are
    int64. A field name that several structs share is prefixed with the
    struct's name. *)

Record User : Type := {
  User_ID : Z;
  Gamer : bool;
  Developer : bool;
  PressUser : bool;
  DisplayName : string;
  Username : string;
  AllowTelemetry : bool;
}.

Record Game : Type := {
  Game_ID : Z;
  UserID : Z;
  Title : string;
  MinPrice : Z;
  Game_Type : string;
  Classification : string;
}.

Record Upload : Type := {
  Upload_ID : Z;
  GameID : Z;
  Upload_Type : string;
  Storage : string;
  Upload_Size : Z;
  Upload_Filename : string;
  URL : string;
  PlatformLinux : bool;
  PlatformWindows : bool;
  PlatformMac : bool;
  Head : Z;
}.

Record CDNFile : Type := {
  Filename : string;
  Size : Z;
  Contents : bytes_slice;
}.

(** Modelled from the spec: the struct BuildFile, a file of a Build, by the
    CDNFile it points to. *)
Record BuildFile : Type := {
  BuildFile_CDNFile : CDNFile;
}.

(** Modelled from the spec: the struct Build, whose files are keyed by a
    (type, subtype) pair. *)
Record Build : Type := {
  Build_ID : Z;
  UploadID : Z;
  Files : gmap (string * string) BuildFile;
}.

(** Modelled from the spec: the method [Build.GetFile], [None] for the nil
    pointer it returns when the pair is absent. *)
Definition GetFile (b : Build) (typ subtype : string) : option BuildFile :=
  Files b !! (typ, subtype).

(** Modelled from the spec: the interface [CDNAsset] that [ServeCDNAsset]
    accepts; the handlers pass it an Upload or a BuildFile. *)
Inductive CDNAsset : Type :=
| AssetUpload (u : Upload)
| AssetBuildFile (bf : BuildFile).

(** [*http.Request]: the method, [URL.Path], the header, and the route
    variables that the router (gorilla/mux) has bound for the registration
    it matched the path against ([mux.Vars]). *)
Record Request : Type := {
  Method : string;
  URL_Path : string;
  Request_Header : Header;
  Vars : gmap string string;
}.

(** Modelled from the spec: the Store by its read accessors (a [None] is
    the nil pointer of an absent entity); [CDNFiles] is the map the /@cdn
    handler indexes. *)
Record Store : Type := {
  Store_FindGame : Z → option Game;
  Store_FindUpload : Z → option Upload;
  Store_FindBuild : Z → option Build;
  ListUploadsByGame : Z → list Upload;
  CDNFiles : gmap string CDNFile;
}.

(* ===================================================================== *)
(** * formatters.go *)
(* ===================================================================== *)

Definition FormatUser (user : User) : Any :=
  let res : Any := list_to_map [
    ("id", VInt64 (User_ID user));
    ("gamer", VBool (Gamer user));
    ("developer", VBool (Developer user));
    ("press_user", VBool (PressUser user));
    ("display_name", VString (DisplayName user));
    ("username", VString (Username user));
    ("url", VString "http://example.org");
    ("cover_url", VString "http://example.org")
  ] in
  if AllowTelemetry user then <["allow_telemetry" := VBool true]> res else res.

Definition FormatGame (game : Game) : Any :=
  list_to_map [
    ("id", VInt64 (Game_ID game));
    ("user_id", VInt64 (UserID game));
    ("title", VString (Title game));
    ("min_price", VInt64 (MinPrice game));
    ("type", VString (Game_Type game));
    ("classification", VString (Classification game))
  ].

Definition FormatUpload (upload : Upload) : Any :=
  let res : Any := list_to_map [
    ("id", VInt64 (Upload_ID upload));
    ("game_id", VInt64 (GameID upload));
    ("type", VString (Upload_Type upload));
    ("storage", VString (Storage upload));
    ("size", VInt64 (Upload_Size upload));
    ("filename", VString (Upload_Filename upload));
    ("url", VString (URL upload))
  ] in
  let platforms : Any := ∅ in
  let platforms :=
    if PlatformLinux upload then <["linux" := VString "all"]> platforms else platforms in
  let platforms :=
    if PlatformWindows upload then <["windows" := VString "all"]> platforms else platforms in
  let platforms :=
    if PlatformMac upload then <["osx" := VString "all"]> platforms else platforms in
  <["platforms" := VMap platforms]> res.

(** [var res []Any], then one [append] per element of [uploads]: the
    result is the nil slice when the loop body never runs. *)
Definition FormatUploads (uploads : list Upload) : option (list Any) :=
  fold_left (fun res u => go_append res (FormatUpload u)) uploads None.

(** A [[]Any] and a [[]string] stored in an [interface{}]. *)
Definition value_of_maps (s : option (list Any)) : value := VSlice (map VMap <$> s).

Definition value_of_strings (s : option (list string)) : value := VSlice (map VString <$> s).

(* ===================================================================== *)
(** * Panics and the response writer *)
(* ===================================================================== *)

(** Modelled from the spec: the struct [APIError] that [Throw] panics with
    and the wrapper recovers, by the fields [status] and [messages] the
    wrapper reads. *)
Record APIError : Type := {
  APIError_status : Z;
  APIError_messages : list string;
}.

(** An [error] value, by what the wrapper observes of it: whether
    [errors.Cause] of it is an [APIError], and otherwise the text [%+v]
    prints for it. *)
Inductive error : Type :=
| ErrAPI (ae : APIError)
| ErrOther (detail : string).

(** What [recover()] returns after a panic: a value that is an [error], or
    any other value, with the text [%+v] prints for it. *)
Inductive panic_value : Type :=
| PanicError (e : error)
| PanicValue (detail : string).

(** The faults of the Go runtime the handlers can run into. *)
Inductive runtime_fault : Type :=
| IndexOutOfRange (i n : Z)
| SliceBoundsOutOfRange (lo hi capacity : Z)
| NilDereference.

(** What the Go runtime and the libraries determine, and the code does not:
    - [quote_unicode]: [strconv.Quote] on a string holding a byte from 0x80
      on (it decodes UTF-8 and consults the Unicode tables);
    - [callers]: the stack trace [errors.Errorf] records in the wrapper, as
      [%+v] prints it after the message;
    - [runtime_text]: the text of a [runtime.Error] after "runtime error: ";
    - [uuid_New]: the string of the random UUID [uuid.New()] draws. *)
Class Runtime : Type := {
  quote_unicode : string → string;
  callers : string;
  runtime_text : runtime_fault → string;
  uuid_New : string;
}.

(** The verb [%q] on a string ([strconv.Quote]). *)
Definition fmt_q `{Runtime} (s : string) : string :=
  if is_ascii_string s
  then String dquote (String.concat "" (map quote_byte (list_ascii_of_string s)) +:+ String dquote "")
  else quote_unicode s.

Definition runtime_Error `{Runtime} (f : runtime_fault) : panic_value :=
  PanicError (ErrOther ("runtime error: " +:+ runtime_text f)).

(** [errors.Errorf] with an already formatted message, as the text [%+v]
    prints for the new error: the message, then the stack trace. *)
Definition errors_Errorf `{Runtime} (msg : string) : string :=
  msg +:+ callers.

(** What has been written to the body of a response. *)
Inductive body_part : Type :=
| BodyJSON (doc : json)
| BodyBytes (data : list byte).

(** [http.ResponseWriter]: the header map handlers set, the status code and
    the headers as they were when [WriteHeader] first ran ([None] before),
    and the body written so far. *)
Record ResponseWriter : Type := {
  w_header : Header;
  w_sent : option (Z * Header);
  w_body : list body_part;
}.

(** The state Unsent of a response: no status line has been written. *)
Definition Unsent (w : ResponseWriter) : Prop := w_sent w = None ∧ w_body w = [].

(** [w.WriteHeader(code)]: a second call changes nothing. *)
Definition ResponseWriter_WriteHeader (code : Z) (w : ResponseWriter) : ResponseWriter :=
  match w_sent w with
  | Some _ => w
  | None => {| w_header := w_header w; w_sent := Some (code, w_header w); w_body := w_body w |}
  end.

(** [w.Write(data)]: writes the status line with code 200 first when
    [WriteHeader] has not run. Every write is recorded; net/http refuses
    one that exceeds a declared Content-Length, so what is stated of an
    asset's body is stated where the declared length is the number of
    bytes written. *)
Definition ResponseWriter_Write (part : body_part) (w : ResponseWriter) : ResponseWriter :=
  let w := ResponseWriter_WriteHeader 200 w in
  {| w_header := w_header w; w_sent := w_sent w; w_body := w_body w ++ [part] |}.

(** [io.Copy(w, bytes.NewReader(data))]: a reader with nothing left calls
    [Write] not at all. *)
Definition io_Copy (data : list byte) (w : ResponseWriter) : ResponseWriter :=
  match data with
  | [] => w
  | _ => ResponseWriter_Write (BodyBytes data) w
  end.

(** The status code and the headers the client receives. *)
Definition resp_status (w : ResponseWriter) : option Z := fst <$> w_sent w.
Definition resp_header (w : ResponseWriter) (key : string) : option (list string) :=
  w_sent w ≫= λ sent, snd sent !! key.

(* ===================================================================== *)
(** * The request context *)
(* ===================================================================== *)

(** The struct [server]; of its fields, request handling reads the store
    only. *)
Record server : Type := {
  server_store : Store;
}.

(** Modelled from the spec: the struct [response], the request context,
    whose declaration is not in the sources at hand, by the fields [serve]
    reads and writes ([r.s], [r.w], [r.req], [r.store], [r.status],
    [r.currentUser]); a status of 0 is the zero value of a fresh struct. *)
Record response : Type := {
  r_s : server;
  r_w : ResponseWriter;
  r_req : Request;
  r_store : Store;
  r_status : Z;
  r_currentUser : option User;
}.

Definition set_w (w : ResponseWriter) (r : response) : response :=
  {| r_s := r_s r; r_w := w; r_req := r_req r; r_store := r_store r;
     r_status := r_status r; r_currentUser := r_currentUser r |}.

Definition set_status (st : Z) (r : response) : response :=
  {| r_s := r_s r; r_w := r_w r; r_req := r_req r; r_store := r_store r;
     r_status := st; r_currentUser := r_currentUser r |}.

Definition set_currentUser (u : option User) (r : response) : response :=
  {| r_s := r_s r; r_w := r_w r; r_req := r_req r; r_store := r_store r;
     r_status := r_status r; r_currentUser := u |}.

(** The [response] the wrapper builds for a request (lines 99-104). *)
Definition new_response (s : server) (w : ResponseWriter) (req : Request) : response :=
  {| r_s := s; r_w := w; r_req := req; r_store := server_store s;
     r_status := 0; r_currentUser := None |}.

(** How a call ends: it returns, or it panics. *)
Inductive outcome (A : Type) : Type :=
| Returned (a : A)
| Panicked (v : panic_value).
Arguments Returned {A} a.
Arguments Panicked {A} v.

(** Code that runs on a [*response]: it mutates the struct in place, so the
    changes made before a panic stay. *)
Definition M (A : Type) : Type := response → outcome A * response.

#[export] Instance M_ret : MRet M := λ A a r, (Returned a, r).

#[export] Instance M_bind : MBind M := λ A B f m r,
  match m r with
  | (Returned a, r') => f a r'
  | (Panicked v, r') => (Panicked v, r')
  end.

Definition panic {A : Type} (v : panic_value) : M A := λ r, (Panicked v, r).
Definition get : M response := λ r, (Returned r, r).
Definition modify (f : response → response) : M unit := λ r, (Returned tt, f r).

(** [type coolHandler func(r *response)] *)
Abbreviation coolHandler := (M unit).

(** [type RespondToMap map[string]func()] *)
Abbreviation RespondToMap := (gmap string (M unit)).

(** The code of this repository that the handlers call and whose source is
    not at hand, where the specification leaves its behaviour open:
    - [ResolveAPIKey]: the User the store resolves the request's API key
      to, [None] when the key is absent or invalid;
    - [unauthenticated], [forbidden], [bad_variable]: the messages of the
      401, 403 and 400 aborts;
    - [unmapped_method]: the abort of [RespondTo] for a method that has no
      handler;
    - [Game_CanBeViewedBy], [Upload_CanBeDownloadedBy]: the capability
      predicates; the first is also called on a nil [*Game], where [None]
      stands for a nil pointer dereference;
    - [ServeCDNAsset]: the delivery of an asset. *)
Class Collaborators : Type := {
  ResolveAPIKey : Store → Request → option User;
  unauthenticated : list string;
  forbidden : list string;
  bad_variable : list string;
  unmapped_method : APIError;
  Game_CanBeViewedBy : option Game → option User → option bool;
  Upload_CanBeDownloadedBy : Upload → option User → bool;
  ServeCDNAsset : CDNAsset → M unit;
}.

Section RequestContext.
Context `{RT : Runtime} `{CO : Collaborators}.

(** Modelled from the spec: [Throw(status, messages...)], the abort signal:
    a panic with an [APIError]. *)
Definition Throw {A : Type} (status : Z) (messages : list string) : M A :=
  panic (PanicError (ErrAPI {| APIError_status := status; APIError_messages := messages |})).

(** Modelled from the spec: [r.Header()], the header map of the response
    writer [r.w]; then [Set(key, value)] on it. *)
Definition Header_set (key value : string) : M unit :=
  modify (λ r,
    let w := r_w r in
    set_w {| w_header := Header_Set (w_header w) key value;
             w_sent := w_sent w; w_body := w_body w |} r).

(** Modelled from the spec: [r.WriteHeader()], which writes the status line
    with [r.status] and the headers. *)
Definition WriteHeader : M unit :=
  modify (λ r, set_w (ResponseWriter_WriteHeader (r_status r) (r_w r)) r).

(** Modelled from the spec: [r.WriteJSON(payload)] serializes the mapping,
    sets status 200 unless one is set already, and writes the document as
    the response body. *)
Definition WriteJSON (payload : Any) : M unit :=
  modify (λ r, if r_status r =? 0 then set_status 200 r else r) ;;
  WriteHeader ;;
  modify (λ r, set_w (ResponseWriter_Write (BodyJSON (Marshal (VMap payload))) (r_w r)) r).

(** The slice a variadic parameter holds: nil when no argument is passed. *)
Definition variadic {A : Type} (args : list A) : option (list A) :=
  match args with
  | [] => None
  | _ => Some args
  end.

(** Modelled from the spec: [r.WriteError(status, messages...)] writes the
    JSON error body [{errors: [...]}] with that status. *)
Definition WriteError (status : Z) (messages : list string) : M unit :=
  modify (set_status status) ;;
  WriteJSON {[ "errors" := value_of_strings (variadic messages) ]}.

(** Modelled from the spec: [r.CheckAPIKey()] aborts with 401 when the
    request has no valid API key, and attaches the current User
    otherwise. *)
Definition CheckAPIKey : M unit :=
  r ← get;
  match ResolveAPIKey (r_store r) (r_req r) with
  | Some u => modify (set_currentUser (Some u))
  | None => Throw 401 unauthenticated
  end.

(** Modelled from the spec: [r.Var(name)], the route variable [name]. *)
Definition Var (name : string) : M string :=
  r ← get; mret (default "" (Vars (r_req r) !! name)).

(** Modelled from the spec: [r.Int64Var(name)] aborts with 400 when the
    variable is no integer. *)
Definition Int64Var (name : string) : M Z :=
  v ← Var name;
  match strconv_ParseInt v with
  | Some z => mret z
  | None => Throw 400 bad_variable
  end.

(** Modelled from the spec: [r.FindGame], [r.FindUpload] and [r.FindBuild]
    abort with 404 ("not found") when the store has no such entity. *)
Definition FindGame (id : Z) : M Game :=
  r ← get;
  match Store_FindGame (r_store r) id with
  | Some g => mret g
  | None => Throw 404 ["not found"]
  end.

Definition FindUpload (id : Z) : M Upload :=
  r ← get;
  match Store_FindUpload (r_store r) id with
  | Some u => mret u
  | None => Throw 404 ["not found"]
  end.

Definition FindBuild (id : Z) : M Build :=
  r ← get;
  match Store_FindBuild (r_store r) id with
  | Some b => mret b
  | None => Throw 404 ["not found"]
  end.

(** Modelled from the spec: [r.AssertAuthorization(authorized)] aborts with
    403 when the predicate is false. *)
Definition AssertAuthorization (authorized : bool) : M unit :=
  if authorized then mret tt else Throw 403 forbidden.

(** Modelled from the spec: [r.RespondTo(handlers)] runs the handler of the
    request's method, and aborts when there is none. *)
Definition RespondTo (rtm : RespondToMap) : M unit :=
  r ← get;
  match rtm !! Method (r_req r) with
  | Some h => h
  | None => Throw (APIError_status unmapped_method) (APIError_messages unmapped_method)
  end.

(** [game.CanBeViewedBy(r.currentUser)] on a [*Game] that may be nil: a
    nil pointer dereference is a runtime panic. *)
Definition CanBeViewedBy (game : option Game) : M bool :=
  r ← get;
  match Game_CanBeViewedBy game (r_currentUser r) with
  | Some b => mret b
  | None => panic (runtime_Error NilDereference)
  end.

(** [upload.CanBeDownloadedBy(r.currentUser)] *)
Definition CanBeDownloadedBy (upload : Upload) : M bool :=
  r ← get; mret (Upload_CanBeDownloadedBy upload (r_currentUser r)).

End RequestContext.

(* ===================================================================== *)
(** * server.serve: the route handlers and the dispatch wrapper *)
(* ===================================================================== *)

Section Serve.
Context `{RT : Runtime} `{CO : Collaborators}.

(** [l[i]] for a constant index, with the runtime's bounds check. *)
Definition index {A : Type} (l : list A) (i : nat) : M A :=
  match l !! i with
  | Some x => mret x
  | None => panic (runtime_Error (IndexOutOfRange (Z.of_nat i) (Z.of_nat (length l))))
  end.

(** [data[lo:hi]] with the runtime's bounds check. *)
Definition slice (data : bytes_slice) (lo hi : Z) : M bytes_slice :=
  match slice_bytes data lo hi with
  | Some d => mret d
  | None => panic (runtime_Error (SliceBoundsOutOfRange lo hi (cap data)))
  end.

(** ** /profile *)
Definition profile_GET : M unit :=
  CheckAPIKey ;;
  r ← get;
  match r_currentUser r with
  | Some user => WriteJSON {[ "user" := VMap (FormatUser user) ]}
  | None => panic (runtime_Error NilDereference)
  end.

Definition profile : coolHandler :=
  RespondTo {[ "GET" := profile_GET ]}.

(** ** /games/{id} *)
Definition games_GET : M unit :=
  CheckAPIKey ;;
  gameID ← Int64Var "id";
  game ← FindGame gameID;
  authorized ← CanBeViewedBy (Some game);
  AssertAuthorization authorized ;;
  WriteJSON {[ "game" := VMap (FormatGame game) ]}.

Definition games : coolHandler :=
  RespondTo {[ "GET" := games_GET ]}.

(** ** /games/{id}/uploads: the game is looked up with [r.store.FindGame],
    which returns nil for an absent game. *)
Definition games_uploads_GET : M unit :=
  CheckAPIKey ;;
  gameID ← Int64Var "id";
  r ← get;
  let game := Store_FindGame (r_store r) gameID in
  authorized ← CanBeViewedBy game;
  AssertAuthorization authorized ;;
  let uploads := ListUploadsByGame (r_store r) gameID in
  WriteJSON {[ "uploads" := value_of_maps (FormatUploads uploads) ]}.

Definition games_uploads : coolHandler :=
  RespondTo {[ "GET" := games_uploads_GET ]}.

(** ** /games/{id}/download-sessions *)
Definition games_download_sessions_POST : M unit :=
  CheckAPIKey ;;
  gameID ← Int64Var "id";
  r ← get;
  let game := Store_FindGame (r_store r) gameID in
  authorized ← CanBeViewedBy game;
  AssertAuthorization authorized ;;
  WriteJSON {[ "uuid" := VString uuid_New ]}.

Definition games_download_sessions : coolHandler :=
  RespondTo {[ "POST" := games_download_sessions_POST ]}.

(** ** /uploads/{id}/download *)
Definition uploads_download_GET : M unit :=
  CheckAPIKey ;;
  uploadID ← Int64Var "id";
  upload ← FindUpload uploadID;
  authorized ← CanBeDownloadedBy upload;
  AssertAuthorization authorized ;;
  if String.eqb (Storage upload) "hosted" then
    ServeCDNAsset (AssetUpload upload)
  else if String.eqb (Storage upload) "build" then
    build ← FindBuild (Head upload);
    match GetFile build "archive" "default" with
    | None => Throw 404 ["no archive for build"]
    | Some archive => ServeCDNAsset (AssetBuildFile archive)
    end
  else
    Throw 500 ["unsupported storage"].

Definition uploads_download : coolHandler :=
  RespondTo {[ "GET" := uploads_download_GET ]}.

(** ** /builds/{id}/download/{type}/{subtype} *)
Definition builds_download_GET : M unit :=
  CheckAPIKey ;;
  buildID ← Int64Var "id";
  build ← FindBuild buildID;
  upload ← FindUpload (UploadID build);
  authorized ← CanBeDownloadedBy upload;
  AssertAuthorization authorized ;;
  typ ← Var "type";
  subtype ← Var "subtype";
  match GetFile build typ subtype with
  | None => Throw 404 ["no " +:+ typ +:+ "/" +:+ subtype +:+ " build file"]
  | Some bf => ServeCDNAsset (AssetBuildFile bf)
  end.

Definition builds_download : coolHandler :=
  RespondTo {[ "GET" := builds_download_GET ]}.

(** ** /@cdn *)

(** Lines 251-261: the bounds [start] and [end] that a non-empty Range
    header asks for, on a file of [size] bytes. *)
Definition range_bounds (size : Z) (rangeHeader : string) : M (Z * Z) :=
  let rangeTokens := strings_Split rangeHeader "=" in
  t ← index rangeTokens 1;
  let byteTokens := strings_Split t "-" in
  b0 ← index byteTokens 0;
  let start := default 0 (strconv_ParseInt b0) in
  let end_ := wrap64 (size - 1) in
  b1 ← index byteTokens 1;
  let end_ := default end_ (strconv_ParseInt b1) in
  mret (start, end_).

(** Lines 264-267: the subrange, its length, status 206 and the
    Content-Range header. *)
Definition serve_range (f : CDNFile) (start end_ : Z) : M (bytes_slice * Z) :=
  data ← slice (Contents f) start (wrap64 (end_ + 1));
  let contentLength := wrap64 (wrap64 (end_ + 1) - start) in
  modify (set_status 206) ;;
  Header_set "content-range"
    ("bytes " +:+ fmt_d start +:+ "-" +:+ fmt_d end_ +:+ "/" +:+ fmt_d (Size f)) ;;
  mret (data, contentLength).

(** Lines 270-280: the headers of every asset response, the status line and
    the body. *)
Definition send_asset (f : CDNFile) (data : bytes_slice) (contentLength : Z) : M unit :=
  Header_set "content-length" (fmt_d contentLength) ;;
  Header_set "accept-range" "bytes" ;;
  Header_set "content-type" "application/octet-stream" ;;
  Header_set "content-disposition" ("attachment; filename=" +:+ fmt_q (Filename f)) ;;
  Header_set "connection" "close" ;;
  WriteHeader ;;
  modify (λ r, set_w (io_Copy (elems data) (r_w r)) r).

Definition cdn_GET : M unit :=
  r ← get;
  let path := URL_Path (r_req r) in
  let path := strings_TrimPrefix path "/@cdn" in
  match CDNFiles (r_store r) !! path with
  | None => Throw 404 ["not found"]
  | Some f =>
      let rangeHeader := Header_Get (Request_Header (r_req r)) "Range" in
      '(data, contentLength) ←
        (if String.eqb rangeHeader "" then
           modify (set_status 200) ;; mret (Contents f, Size f)
         else
           '(start, end_) ← range_bounds (Size f) rangeHeader;
           serve_range f start end_);
      send_asset f data contentLength
  end.

Definition cdn : coolHandler :=
  RespondTo {[ "GET" := cdn_GET ]}.

(** ** / *)
Definition not_found : coolHandler :=
  Throw 404 ["invalid api endpoint"].

(** ** The wrapper [handler] of lines 97-127

    [ret_err] is the error the inner function returns, as the text [%+v]
    prints for it, which is all the wrapper uses of it. *)
Definition handler (ch : coolHandler) (s : server) (w : ResponseWriter) (req : Request) : ResponseWriter :=
  let res := new_response s w req in
  let '(ret_err, res) :=
    match ch res with
    | (Returned _, res) => (None, res)
    | (Panicked (PanicError (ErrAPI ae)), res) =>
        (None, snd (WriteError (APIError_status ae) (APIError_messages ae) res))
    | (Panicked (PanicError (ErrOther detail)), res) => (Some detail, res)
    | (Panicked (PanicValue detail), res) =>
        (Some (errors_Errorf ("panic: " +:+ detail)), res)
    end in
  match ret_err with
  | Some detail => r_w (snd (WriteError 500 ["internal error: " +:+ detail] res))
  | None => r_w res
  end.

(** The registrations of [serve], in order: [route] for a path template,
    [routePrefix] for a path prefix. Matching a request path against them
    is the router's; a handler runs on the request with the variables of
    its template bound in [Vars]. *)
Inductive registration : Type :=
| route (template : string) (ch : coolHandler)
| routePrefix (prefix : string) (ch : coolHandler).

Definition routes : list registration := [
  route "/profile" profile;
  route "/games/{id}" games;
  route "/games/{id}/uploads" games_uploads;
  route "/games/{id}/download-sessions" games_download_sessions;
  route "/uploads/{id}/download" uploads_download;
  route "/builds/{id}/download/{type}/{subtype}" builds_download;
  routePrefix "/@cdn" cdn;
  routePrefix "/" not_found
].

End Serve.


(* ===================================================================== *)
(** * NewServer and its options *)
(* ===================================================================== *)

(** [type serverOpts struct { port int }] *)
Record serverOpts : Type := {
  port : Z;
}.

(** [type ServerOpt func(opts *serverOpts)]: the options after the call. *)
Abbreviation ServerOpt := (serverOpts → serverOpts).

Definition WithPort (p : Z) : ServerOpt :=
  λ opts, {| port := p |}.

(** Lines 48-51 of [NewServer]: the zero [serverOpts], then every option
    in turn. *)
Definition NewServer_opts (options : list ServerOpt) : serverOpts :=
  fold_left (λ opts o, o opts) options {| port := 0 |}.

(** Line 68 of [start]: the address the server listens on. *)
Definition start_addr (opts : serverOpts) : string :=
  "127.0.0.1:" +:+ fmt_d (port opts).
(* ===================================================================== *)
(** * Vocabulary of the properties *)
(* ===================================================================== *)




(** The JSON error body [{errors: [...]}]. *)
Definition error_body (messages : list string) : body_part :=
  BodyJSON (JObject {[ "errors" := Marshal (value_of_strings (variadic messages)) ]}).

(** The body [io.Copy] leaves on a response that had none. *)
Definition bytes_body (data : list byte) : list body_part :=
  match data with
  | [] => []
  | _ => [BodyBytes data]
  end.

(** The faults that are no abort, with the detail the wrapper formats:
    the [%+v] text of an error whose cause is no [APIError], and for any
    other panic value the text of the error [errors.Errorf] makes of it. *)
Inductive unstructured_fault `{Runtime} : panic_value → string → Prop :=
| fault_error (detail : string) :
    unstructured_fault (PanicError (ErrOther detail)) detail
| fault_value (detail : string) :
    unstructured_fault (PanicValue detail) (errors_Errorf ("panic: " +:+ detail)).

(** The start and end tokens of a Range header: the first two fields,
    separated by "-", of what stands between the first and the second "=". *)
Definition range_tokens (rangeHeader : string) : option (string * string) :=
  match strings_Split rangeHeader "=" with
  | _ :: t :: _ =>
      match strings_Split t "-" with
      | b0 :: b1 :: _ => Some (b0, b1)
      | _ => None
      end
  | _ => None
  end.


(** The headers [send_asset] sets, on top of [h]. *)
Definition asset_headers `{Runtime} (h : Header) (f : CDNFile) (contentLength : Z) : Header :=
  Header_Set
    (Header_Set
      (Header_Set
        (Header_Set
          (Header_Set h "content-length" (fmt_d contentLength))
          "accept-range" "bytes")
        "content-type" "application/octet-stream")
      "content-disposition" ("attachment; filename=" +:+ fmt_q (Filename f)))
    "connection" "close".

Definition with_header (h : Header) (w : ResponseWriter) : ResponseWriter :=
  {| w_header := h; w_sent := w_sent w; w_body := w_body w |}.

(** A GET request under /@cdn whose path names the stored file [f] and
    whose Range header is [rangeHeader] ("" when it has none). *)
Definition cdn_request (s : server) (req : Request) (f : CDNFile) (rangeHeader : string) : Prop :=
  Method req = "GET"
  ∧ CDNFiles (server_store s) !! strings_TrimPrefix (URL_Path req) "/@cdn" = Some f
  ∧ Header_Get (Request_Header req) "Range" = rangeHeader.


(** A GET request of a user with a valid API key, whose route variable
    "id" is the integer [id]. *)
Definition authenticated_get `{Collaborators} (s : server) (req : Request) (u : User) (id : Z) : Prop :=
  Method req = "GET"
  ∧ ResolveAPIKey (server_store s) req = Some u
  ∧ ∃ v, Vars req !! "id" = Some v ∧ strconv_ParseInt v = Some id.

(** A download request that reaches a Build lacking the file it asks for,
    with the handler of its route. *)
Inductive download_of_absent_file `{Runtime} `{Collaborators}
    (s : server) (req : Request) : coolHandler → Prop :=
| absent_pair (u : User) (id : Z) (build : Build) (upload : Upload) :
    authenticated_get s req u id →
    Store_FindBuild (server_store s) id = Some build →
    Store_FindUpload (server_store s) (UploadID build) = Some upload →
    Upload_CanBeDownloadedBy upload (Some u) = true →
    GetFile build (default "" (Vars req !! "type")) (default "" (Vars req !! "subtype")) = None →
    download_of_absent_file s req builds_download
| absent_archive (u : User) (id : Z) (upload : Upload) (build : Build) :
    authenticated_get s req u id →
    Store_FindUpload (server_store s) id = Some upload →
    Upload_CanBeDownloadedBy upload (Some u) = true →
    Storage upload = "build" →
    Store_FindBuild (server_store s) (Head upload) = Some build →
    GetFile build "archive" "default" = None →
    download_of_absent_file s req uploads_download.

(* ===================================================================== *)
(** * Sample data *)
(* ===================================================================== *)

(** A runtime with the fault texts of Go 1.13 and later, and no stack
    trace. *)
Definition sample_runtime : Runtime := {|
  quote_unicode := λ s, s;
  callers := "";
  runtime_text := λ f,
    match f with
    | IndexOutOfRange i n =>
        "index out of range [" +:+ fmt_d i +:+ "] with length " +:+ fmt_d n
    | SliceBoundsOutOfRange lo hi c =>
        if hi <? 0 then "slice bounds out of range [:" +:+ fmt_d hi +:+ "]"
        else if c <? hi then
          "slice bounds out of range [:" +:+ fmt_d hi +:+ "] with capacity " +:+ fmt_d c
        else if lo <? 0 then "slice bounds out of range [" +:+ fmt_d lo +:+ ":]"
        else "slice bounds out of range [" +:+ fmt_d lo +:+ ":" +:+ fmt_d hi +:+ "]"
    | NilDereference => "invalid memory address or nil pointer dereference"
    end;
  uuid_New := "123e4567-e89b-12d3-a456-426614174000";
|}.

Definition sample_user : User := {|
  User_ID := 1; Gamer := true; Developer := false; PressUser := false;
  DisplayName := "Ann"; Username := "ann"; AllowTelemetry := false;
|}.

Definition sample_file : CDNFile := {|
  Filename := "a.zip";
  Size := 10;
  Contents := {| elems := [x00; x01; x02; x03; x04; x05; x06; x07; x08; x09]; spare := [] |};
|}.

(** A file of 10 bytes whose [Contents] is a slice of capacity 12. *)
Definition sample_file_spare : CDNFile := {|
  Filename := "c.bin";
  Size := 10;
  Contents := {| elems := [x00; x01; x02; x03; x04; x05; x06; x07; x08; x09];
                 spare := [x0a; x0b] |};
|}.

Definition sample_server_spare : server := {|
  server_store := {|
    Store_FindGame := λ _, None;
    Store_FindUpload := λ _, None;
    Store_FindBuild := λ _, None;
    ListUploadsByGame := λ _, [];
    CDNFiles := {[ "/c.bin" := sample_file_spare ]};
  |};
|}.

(** A file of 500 bytes, the i-th being [i mod 256]. *)
Definition sample_file_500 : CDNFile := {|
  Filename := "b.bin";
  Size := 500;
  Contents := {| elems := map (λ i, default x00 (Byte.of_nat (i mod 256))) (seq 0 500);
                 spare := [] |};
|}.

Definition sample_upload (id : Z) (storage : string) : Upload := {|
  Upload_ID := id; GameID := 9; Upload_Type := "default"; Storage := storage;
  Upload_Size := 10; Upload_Filename := "a.zip"; URL := "";
  PlatformLinux := true; PlatformWindows := false; PlatformMac := true;
  Head := 5;
|}.

(** Build 5 has the archive of upload 3; build 6 has no file. *)
Definition sample_build (id : Z) : Build := {|
  Build_ID := id; UploadID := 3;
  Files := if id =? 5 then {[ ("archive", "default") := {| BuildFile_CDNFile := sample_file |} ]} else ∅;
|}.

(** A store with no game; upload 3 has storage kind "build" and head 5,
    upload 4 storage kind "build" and head 6, upload 7 the storage kind
    "tape"; the files are stored under the CDN paths "/a.zip" and
    "/b.bin". *)
Definition sample_store : Store := {|
  Store_FindGame := λ _, None;
  Store_FindUpload := λ id,
    if id =? 3 then Some (sample_upload 3 "build")
    else if id =? 4 then Some {| Upload_ID := 4; GameID := 9; Upload_Type := "default";
                                 Storage := "build"; Upload_Size := 0; Upload_Filename := "";
                                 URL := ""; PlatformLinux := false; PlatformWindows := false;
                                 PlatformMac := false; Head := 6 |}
    else if id =? 7 then Some (sample_upload 7 "tape")
    else None;
  Store_FindBuild := λ id, if (id =? 5) || (id =? 6) then Some (sample_build id) else None;
  ListUploadsByGame := λ _, [];
  CDNFiles := {[ "/a.zip" := sample_file; "/b.bin" := sample_file_500 ]};
|}.

Definition sample_server : server := {| server_store := sample_store |}.

(** Collaborators for the sample requests: the API key is the value of the
    Authorization header, a nil game cannot be inspected, and an asset is
    delivered as an empty 200 response. *)
Definition sample_collaborators : Collaborators := {|
  ResolveAPIKey := λ _ req,
    if String.eqb (Header_Get (Request_Header req) "Authorization") "secret"
    then Some sample_user else None;
  unauthenticated := ["authentication required"];
  forbidden := ["forbidden"];
  bad_variable := ["invalid id"];
  unmapped_method := {| APIError_status := 405; APIError_messages := ["method not allowed"] |};
  Game_CanBeViewedBy := λ g _, match g with Some _ => Some true | None => None end;
  Upload_CanBeDownloadedBy := λ _ _, true;
  ServeCDNAsset := λ _ r, (Returned tt, set_w (ResponseWriter_WriteHeader 200 (r_w r)) r);
|}.

Definition fresh_writer : ResponseWriter :=
  {| w_header := ∅; w_sent := None; w_body := [] |}.

(** GET /@cdn<path> with the given Range header ("" for none). *)
Definition sample_cdn_request (path rangeHeader : string) : Request := {|
  Method := "GET";
  URL_Path := "/@cdn" +:+ path;
  Request_Header := if String.eqb rangeHeader "" then ∅ else {[ "Range" := [rangeHeader] ]};
  Vars := ∅;
|}.

(** An authenticated GET request with the given route variables. *)
Definition sample_api_request (path : string) (vars : gmap string string) : Request := {|
  Method := "GET";
  URL_Path := path;
  Request_Header := {[ "Authorization" := ["secret"] ]};
  Vars := vars;
|}.

(* ===================================================================== *)
(** * Vocabulary of the further properties *)
(* ===================================================================== *)

(** The routes that start with the API key check, with the method they
    answer; the flag tells whether the template has the variable "id". *)
Inductive api_route `{Runtime} `{Collaborators} : bool → string → coolHandler → Prop :=
| api_profile : api_route false "GET" profile
| api_games : api_route true "GET" games
| api_games_uploads : api_route true "GET" games_uploads
| api_games_download_sessions : api_route true "POST" games_download_sessions
| api_uploads_download : api_route true "GET" uploads_download
| api_builds_download : api_route true "GET" builds_download.

(** A request of a user with a valid API key, whose route variable "id"
    is the integer [id]. *)
Definition authenticated `{Collaborators} (s : server) (req : Request) (u : User) (id : Z) : Prop :=
  ResolveAPIKey (server_store s) req = Some u
  ∧ ∃ v, Vars req !! "id" = Some v ∧ strconv_ParseInt v = Some id.

(** A download request of a user who may not download the Upload it
    reaches, with the handler of its route. *)
Inductive forbidden_download `{Runtime} `{Collaborators}
    (s : server) (req : Request) : coolHandler → Prop :=
| forbidden_build (u : User) (id : Z) (build : Build) (upload : Upload) :
    authenticated_get s req u id →
    Store_FindBuild (server_store s) id = Some build →
    Store_FindUpload (server_store s) (UploadID build) = Some upload →
    Upload_CanBeDownloadedBy upload (Some u) = false →
    forbidden_download s req builds_download
| forbidden_upload (u : User) (id : Z) (upload : Upload) :
    authenticated_get s req u id →
    Store_FindUpload (server_store s) id = Some upload →
    Upload_CanBeDownloadedBy upload (Some u) = false →
    forbidden_download s req uploads_download.

(** A download request that names an entity the store does not hold: the
    Upload or the Build of the route, the Upload a Build belongs to, or
    the Build that is the head of an Upload with storage kind "build". *)
Inductive download_of_missing_entity `{Runtime} `{Collaborators}
    (s : server) (req : Request) : coolHandler → Prop :=
| missing_upload (u : User) (id : Z) :
    authenticated_get s req u id →
    Store_FindUpload (server_store s) id = None →
    download_of_missing_entity s req uploads_download
| missing_head (u : User) (id : Z) (upload : Upload) :
    authenticated_get s req u id →
    Store_FindUpload (server_store s) id = Some upload →
    Upload_CanBeDownloadedBy upload (Some u) = true →
    Storage upload = "build" →
    Store_FindBuild (server_store s) (Head upload) = None →
    download_of_missing_entity s req uploads_download
| missing_build (u : User) (id : Z) :
    authenticated_get s req u id →
    Store_FindBuild (server_store s) id = None →
    download_of_missing_entity s req builds_download
| missing_upload_of_build (u : User) (id : Z) (build : Build) :
    authenticated_get s req u id →
    Store_FindBuild (server_store s) id = Some build →
    Store_FindUpload (server_store s) (UploadID build) = None →
    download_of_missing_entity s req builds_download.

(** The "uploads" field as [json.Marshal] writes it. *)
Definition uploads_json (uploads : list Upload) : json :=
  match uploads with
  | [] => JNull
  | _ => JArray (map (λ u, Marshal (VMap (FormatUpload u))) uploads)
  end.

(* ===================================================================== *)
(** * Further sample data *)
(* ===================================================================== *)

Definition sample_game : Game := {|
  Game_ID := 1; UserID := 1; Title := "Sample"; MinPrice := 0;
  Game_Type := "default"; Classification := "game";
|}.

(** A store with game 1 and its uploads 3 (storage kind "build", head 5)
    and 8 (storage kind "hosted"); build 5 belongs to upload 3, build 11
    to an upload 12 that is not stored, and upload 13 has the head 99, a
    build that is not stored. *)
Definition sample_store_full : Store := {|
  Store_FindGame := λ id, if id =? 1 then Some sample_game else None;
  Store_FindUpload := λ id,
    if id =? 3 then Some (sample_upload 3 "build")
    else if id =? 8 then Some (sample_upload 8 "hosted")
    else if id =? 13 then Some {| Upload_ID := 13; GameID := 1; Upload_Type := "default";
                                  Storage := "build"; Upload_Size := 0; Upload_Filename := "";
                                  URL := ""; PlatformLinux := false; PlatformWindows := false;
                                  PlatformMac := false; Head := 99 |}
    else None;
  Store_FindBuild := λ id,
    if id =? 5 then Some (sample_build 5)
    else if id =? 11 then Some {| Build_ID := 11; UploadID := 12; Files := ∅ |}
    else None;
  ListUploadsByGame := λ id,
    if id =? 1 then [sample_upload 3 "build"; sample_upload 8 "hosted"] else [];
  CDNFiles := {[ "/a.zip" := sample_file ]};
|}.

Definition sample_server_full : server := {| server_store := sample_store_full |}.

(** Collaborators that accept the same API key and let nobody view or
    download anything. *)
Definition strict_collaborators : Collaborators := {|
  ResolveAPIKey := λ _ req,
    if String.eqb (Header_Get (Request_Header req) "Authorization") "secret"
    then Some sample_user else None;
  unauthenticated := ["authentication required"];
  forbidden := ["forbidden"];
  bad_variable := ["invalid id"];
  unmapped_method := {| APIError_status := 405; APIError_messages := ["method not allowed"] |};
  Game_CanBeViewedBy := λ _ _, Some false;
  Upload_CanBeDownloadedBy := λ _ _, false;
  ServeCDNAsset := λ _ r, (Returned tt, set_w (ResponseWriter_WriteHeader 200 (r_w r)) r);
|}.

(** A request with the given method, with or without the API key. *)
Definition sample_request (method : string) (key : bool) (vars : gmap string string) : Request := {|
  Method := method;
  URL_Path := "/";
  Request_Header := if key then {[ "Authorization" := ["secret"] ]} else ∅;
  Vars := vars;
|}.

(* ===================================================================== *)
(** * Properties of the library functions *)
(* ===================================================================== *)


Lemma wrap64_range (z : Z) : in_int64 (wrap64 z).
Proof.
  unfold in_int64, wrap64.
  pose proof (Z.mod_pos_bound (z + 2 ^ 63) (2 ^ 64)). lia.
Qed.


(** ** The library functions on concrete inputs *)

Example Split_examples :
  strings_Split "bytes=0-99" "=" = ["bytes"; "0-99"]
  ∧ strings_Split "0-" "-" = ["0"; ""]
  ∧ strings_Split "" "-" = [""]
  ∧ strings_Split "-5-10" "-" = [""; "5"; "10"].
Proof. repeat split. Qed.

Example ParseInt_examples :
  strconv_ParseInt "99" = Some 99
  ∧ strconv_ParseInt "" = None
  ∧ strconv_ParseInt "+7" = Some 7
  ∧ strconv_ParseInt "-0" = Some 0
  ∧ strconv_ParseInt "-" = None
  ∧ strconv_ParseInt "9223372036854775808" = None
  ∧ strconv_ParseInt "-9223372036854775808" = Some (- 2 ^ 63)
  ∧ strconv_ParseInt "1_0" = None
  ∧ strconv_ParseInt "12a" = None.
Proof. repeat split; vm_compute; reflexivity. Qed.

Example CanonicalMIMEHeaderKey_examples :
  CanonicalMIMEHeaderKey "content-range" = "Content-Range"
  ∧ CanonicalMIMEHeaderKey "accept-range" = "Accept-Range"
  ∧ CanonicalMIMEHeaderKey "Range" = "Range"
  ∧ CanonicalMIMEHeaderKey "a b" = "a b".
Proof. repeat split. Qed.

Example fmt_d_examples : fmt_d (-12) = "-12" ∧ fmt_d 0 = "0" ∧ fmt_d 500 = "500".
Proof. repeat split. Qed.

Example quote_byte_examples :
  quote_byte "010" = "\n" ∧ quote_byte "001" = "\x01" ∧ quote_byte "127" = "\x7f"
  ∧ quote_byte "a" = "a".
Proof. repeat split. Qed.

(** ** Split *)

Lemma Split_nonempty (s : string) (sep : ascii) : strings_Split s sep ≠ [].
Proof.
  destruct s as [|c r]; simpl; [done|].
  destruct (Ascii.eqb c sep); [done|].
  destruct (strings_Split r sep); done.
Qed.


Lemma Split_app (a b : string) (sep : ascii) :
  no_byte sep a → strings_Split (a +:+ String sep b) sep = a :: strings_Split b sep.
Proof.
  unfold no_byte. induction a as [|c r IH]; simpl; intros Ha.
  - by rewrite Ascii.eqb_refl.
  - apply Forall_cons in Ha as [Hc Hr].
    apply Ascii.eqb_neq in Hc. rewrite Hc, (IH Hr). done.
Qed.


(** ** Decimal numerals *)






Lemma ParseInt_range (s : string) (v : Z) :
  strconv_ParseInt s = Some v → in_int64 v.
Proof.
  unfold strconv_ParseInt, in_int64.
  destruct (match s with EmptyString => _ | String _ _ => _ end) as [neg digits].
  destruct (NilZero.uint_of_string digits) as [d|]; [|done].
  set (x := if neg then _ else _).
  destruct (Z.leb_spec (- 2 ^ 63) x), (Z.ltb_spec x (2 ^ 63)); simpl; intros [= <-]; lia.
Qed.

Lemma ParseInt_empty : strconv_ParseInt "" = None.
Proof. reflexivity. Qed.

(* ===================================================================== *)
(** * The formatters *)
(* ===================================================================== *)

Lemma fold_append_uploads (us : list Upload) (acc : option (list Any)) :
  fold_left (λ res u, go_append res (FormatUpload u)) us acc
  = match us with
    | [] => acc
    | _ => Some (default [] acc ++ map FormatUpload us)
    end.
Proof.
  revert acc. induction us as [|u us IH]; intros acc; [done|].
  simpl. rewrite IH. destruct us as [|u' us]; [done|].
  unfold go_append. simpl. by rewrite <- app_assoc.
Qed.

Lemma FormatUploads_elems (us : list Upload) :
  slice_elems (FormatUploads us) = map FormatUpload us.
Proof.
  unfold FormatUploads. rewrite fold_append_uploads. by destruct us.
Qed.

(** C7: the "platforms" object of [FormatUpload u] holds the key "linux"
    (resp. "windows", "osx") with the value "all" exactly when
    [u.PlatformLinux] (resp. [u.PlatformWindows], [u.PlatformMac]) is true,
    and holds no other key. *)
Theorem FormatUpload_platforms (u : Upload) :
  ∃ platforms : Any,
    FormatUpload u !! "platforms" = Some (VMap platforms)
    ∧ (platforms !! "linux" = Some (VString "all") ↔ PlatformLinux u = true)
    ∧ (platforms !! "windows" = Some (VString "all") ↔ PlatformWindows u = true)
    ∧ (platforms !! "osx" = Some (VString "all") ↔ PlatformMac u = true)
    ∧ (is_Some (platforms !! "linux") ↔ PlatformLinux u = true)
    ∧ (is_Some (platforms !! "windows") ↔ PlatformWindows u = true)
    ∧ (is_Some (platforms !! "osx") ↔ PlatformMac u = true)
    ∧ (∀ k, is_Some (platforms !! k) → k = "linux" ∨ k = "windows" ∨ k = "osx").
Proof.
  unfold FormatUpload. eexists. split; [apply lookup_insert_eq|].
  destruct (PlatformLinux u), (PlatformWindows u), (PlatformMac u);
    (repeat split;
     [ try done; try (intros [? ?]; done) ..
     | intros k [v Hk];
       repeat (apply lookup_insert_Some in Hk as [[<- _]|[_ Hk]]; [tauto|]);
       by rewrite lookup_empty in Hk ]).
Qed.

(** C9: [FormatUploads us] has the length of [us] and its i-th element is
    [FormatUpload] of the i-th Upload; for no Uploads it is the nil slice,
    which [json.Marshal] writes as [null] in the "uploads" field. *)
Theorem FormatUploads_elementwise (us : list Upload) :
  length (slice_elems (FormatUploads us)) = length us
  ∧ (∀ i : nat, slice_elems (FormatUploads us) !! i = FormatUpload <$> us !! i)
  ∧ (FormatUploads us = None ↔ us = [])
  ∧ FormatUploads [] = None
  ∧ Marshal (VMap {[ "uploads" := value_of_maps (FormatUploads []) ]})
    = JObject {[ "uploads" := JNull ]}
  ∧ Marshal (VMap {[ "uploads" := value_of_maps (Some []) ]})
    = JObject {[ "uploads" := JArray [] ]}.
Proof.
  rewrite FormatUploads_elems. split; [apply length_map|].
  split; [intros i; apply list_lookup_fmap|].
  split; [|repeat split; simpl; by rewrite map_fmap_singleton].
  unfold FormatUploads. rewrite fold_append_uploads.
  destruct us; split; done.
Qed.

(* ===================================================================== *)
(** * Running the request context *)
(* ===================================================================== *)

(** Unfolds the monad and the accessors of [response]. *)
Ltac mrun :=
  cbv [mbind M_bind mret M_ret get modify panic Throw
       set_w set_status set_currentUser new_response
       r_s r_w r_req r_store r_status r_currentUser].

Section Dispatch.
Context `{RT : Runtime} `{CO : Collaborators}.

Lemma bind_run {A B : Type} (m : M A) (k : A → M B) (r : response) :
  (m ≫= k) r
  = match m r with
    | (Returned a, r') => k a r'
    | (Panicked v, r') => (Panicked v, r')
    end.
Proof. reflexivity. Qed.

Lemma WriteError_run (status : Z) (messages : list string) (r : response) :
  status ≠ 0 → w_sent (r_w r) = None →
  WriteError status messages r
  = (Returned tt,
     set_status status
       (set_w {| w_header := w_header (r_w r);
                 w_sent := Some (status, w_header (r_w r));
                 w_body := w_body (r_w r) ++ [error_body messages] |} r)).
Proof.
  destruct r as [s [h sent body] req st0 st u]. simpl. intros Hst ->.
  unfold WriteError, WriteJSON, WriteHeader. mrun.
  destruct (Z.eqb_spec status 0) as [|_]; [done|].
  unfold ResponseWriter_Write, ResponseWriter_WriteHeader, error_body. simpl.
  by rewrite map_fmap_singleton.
Qed.

Lemma handler_returned (ch : coolHandler) s w req r' :
  ch (new_response s w req) = (Returned tt, r') → handler ch s w req = r_w r'.
Proof. unfold handler. by intros ->. Qed.

Lemma handler_abort (ch : coolHandler) s w req ae r' :
  ch (new_response s w req) = (Panicked (PanicError (ErrAPI ae)), r') →
  handler ch s w req
  = r_w (snd (WriteError (APIError_status ae) (APIError_messages ae) r')).
Proof. unfold handler. by intros ->. Qed.

Lemma handler_fault (ch : coolHandler) s w req v detail r' :
  ch (new_response s w req) = (Panicked v, r') →
  unstructured_fault v detail →
  handler ch s w req = r_w (snd (WriteError 500 ["internal error: " +:+ detail] r')).
Proof. unfold handler. intros -> Hv. by destruct Hv. Qed.

Lemma RespondTo_run (rtm : RespondToMap) (h : M unit) (r : response) :
  rtm !! Method (r_req r) = Some h → RespondTo rtm r = h r.
Proof. destruct r; simpl. intros Hm. unfold RespondTo. mrun. by rewrite Hm. Qed.

Lemma CheckAPIKey_run (u : User) (r : response) :
  ResolveAPIKey (r_store r) (r_req r) = Some u →
  CheckAPIKey r = (Returned tt, set_currentUser (Some u) r).
Proof. destruct r; simpl. intros Hu. unfold CheckAPIKey. mrun. by rewrite Hu. Qed.

Lemma Int64Var_run (name v : string) (z : Z) (r : response) :
  Vars (r_req r) !! name = Some v → strconv_ParseInt v = Some z →
  Int64Var name r = (Returned z, r).
Proof.
  destruct r; simpl. intros Hv Hz. unfold Int64Var, Var. mrun.
  rewrite Hv. simpl. by rewrite Hz.
Qed.

(** ** The /@cdn handler *)

Lemma range_bounds_tokens (size : Z) (h b0 b1 : string) (r : response) :
  range_tokens h = Some (b0, b1) →
  range_bounds size h r
  = (Returned (default 0 (strconv_ParseInt b0),
               default (wrap64 (size - 1)) (strconv_ParseInt b1)), r).
Proof.
  unfold range_tokens, range_bounds, index. intros Ht.
  destruct (strings_Split h "=") as [|t0 [|t ts]]; try done.
  destruct (strings_Split t "-") as [|c0 [|c1 cs]] eqn:Hs; try done.
  injection Ht as -> ->. mrun. cbn. rewrite Hs. by cbn.
Qed.

Lemma range_bounds_missing (size : Z) (h : string) (r : response) :
  range_tokens h = None →
  ∃ fault, range_bounds size h r = (Panicked (runtime_Error fault), r).
Proof.
  unfold range_tokens, range_bounds, index. intros Ht. mrun.
  destruct (strings_Split h "=") as [|t0 [|t ts]]; cbn; [by eexists..|].
  pose proof (Split_nonempty t "-") as Hne.
  destruct (strings_Split t "-") as [|c0 [|c1 cs]]; try done.
  cbn. by eexists.
Qed.

Lemma serve_range_run (f : CDNFile) (start end_ : Z) (d : bytes_slice) (r : response) :
  slice_bytes (Contents f) start (wrap64 (end_ + 1)) = Some d →
  serve_range f start end_ r
  = (Returned (d, wrap64 (wrap64 (end_ + 1) - start)),
     set_status 206
       (set_w (with_header
                 (Header_Set (w_header (r_w r)) "content-range"
                    ("bytes " +:+ fmt_d start +:+ "-" +:+ fmt_d end_ +:+ "/" +:+ fmt_d (Size f)))
                 (r_w r)) r)).
Proof.
  destruct r as [s [h sent body] req st0 st u]. intros Hd.
  unfold serve_range, slice, Header_set. rewrite Hd. by mrun.
Qed.

Lemma serve_range_panic (f : CDNFile) (start end_ : Z) (r : response) :
  slice_bytes (Contents f) start (wrap64 (end_ + 1)) = None →
  ∃ fault, serve_range f start end_ r = (Panicked (runtime_Error fault), r).
Proof.
  intros Hd. unfold serve_range, slice. rewrite Hd. by eexists.
Qed.

Lemma send_asset_run (f : CDNFile) (data : bytes_slice) (contentLength : Z) (r : response) :
  send_asset f data contentLength r
  = (Returned tt,
     set_w (io_Copy (elems data)
              (ResponseWriter_WriteHeader (r_status r)
                 (with_header (asset_headers (w_header (r_w r)) f contentLength) (r_w r)))) r).
Proof.
  destruct r as [s [h sent body] req st0 st u].
  unfold send_asset, Header_set, WriteHeader. by mrun.
Qed.

(** The handler past the lookup of the file, on a request whose Range
    header is [h]. *)
Lemma cdn_GET_run (f : CDNFile) (h : string) (r : response) :
  CDNFiles (r_store r) !! strings_TrimPrefix (URL_Path (r_req r)) "/@cdn" = Some f →
  Header_Get (Request_Header (r_req r)) "Range" = h →
  cdn_GET r
  = ((if String.eqb h "" then modify (set_status 200) ;; mret (Contents f, Size f)
      else '(start, end_) ← range_bounds (Size f) h; serve_range f start end_)
     ≫= λ '(data, contentLength), send_asset f data contentLength) r.
Proof.
  destruct r as [s w req st0 st u]. simpl. intros Hf Hh.
  unfold cdn_GET. mrun. by rewrite Hf, Hh.
Qed.

Lemma cdn_GET_missing (r : response) :
  CDNFiles (r_store r) !! strings_TrimPrefix (URL_Path (r_req r)) "/@cdn" = None →
  cdn_GET r = Throw 404 ["not found"] r.
Proof.
  destruct r as [s w req st0 st u]. simpl. intros Hf.
  unfold cdn_GET. mrun. by rewrite Hf.
Qed.

Lemma range_tokens_nonempty (h : string) (b : string * string) :
  range_tokens h = Some b → String.eqb h "" = false.
Proof. by destruct h. Qed.


Lemma cdn_run (r : response) :
  Method (r_req r) = "GET" → cdn r = cdn_GET r.
Proof.
  intros Hm. unfold cdn. apply RespondTo_run. rewrite Hm. apply lookup_singleton_eq.
Qed.

(** The response to a request with no Range header. *)
Lemma cdn_full_response s w req f :
  cdn_request s req f "" → w_sent w = None →
  handler cdn s w req
  = io_Copy (elems (Contents f))
      (let h := asset_headers (w_header w) f (Size f) in
       {| w_header := h; w_sent := Some (200, h); w_body := w_body w |}).
Proof.
  intros (Hm & Hf & Hh) Hw.
  erewrite handler_returned.
  2:{ rewrite cdn_run by done. rewrite (cdn_GET_run f "") by done.
      cbn [String.eqb]. rewrite !bind_run. cbv [modify mret M_ret].
      rewrite send_asset_run. reflexivity. }
  destruct w as [h sent body]; simpl in Hw; subst sent. reflexivity.
Qed.

(** The response to a request whose Range header has both tokens and asks
    for a range the slice expression accepts. *)
Lemma cdn_range_response s w req f h b0 b1 d :
  cdn_request s req f h → w_sent w = None →
  range_tokens h = Some (b0, b1) →
  let start := default 0 (strconv_ParseInt b0) in
  let end_ := default (wrap64 (Size f - 1)) (strconv_ParseInt b1) in
  slice_bytes (Contents f) start (wrap64 (end_ + 1)) = Some d →
  handler cdn s w req
  = io_Copy (elems d)
      (let h := asset_headers
                  (Header_Set (w_header w) "content-range"
                     ("bytes " +:+ fmt_d start +:+ "-" +:+ fmt_d end_ +:+ "/" +:+ fmt_d (Size f)))
                  f (wrap64 (wrap64 (end_ + 1) - start)) in
       {| w_header := h; w_sent := Some (206, h); w_body := w_body w |}).
Proof.
  intros (Hm & Hf & Hh) Hw Ht start end_ Hd.
  erewrite handler_returned.
  2:{ rewrite cdn_run by done. rewrite (cdn_GET_run f h) by done.
      rewrite (range_tokens_nonempty _ _ Ht).
      rewrite !bind_run, (range_bounds_tokens _ _ _ _ _ Ht).
      fold start end_. rewrite (serve_range_run _ _ _ _ _ Hd).
      rewrite send_asset_run. reflexivity. }
  destruct w as [h0 sent body]; simpl in Hw; subst sent. reflexivity.
Qed.

(** The response to a request whose Range header the handler cannot
    serve: a token is missing, or the slice expression is out of range. *)
Lemma cdn_fault_response s w req f h :
  cdn_request s req f h → w_sent w = None → String.eqb h "" = false →
  match range_tokens h with
  | None => True
  | Some (b0, b1) =>
      let start := default 0 (strconv_ParseInt b0) in
      let end_ := default (wrap64 (Size f - 1)) (strconv_ParseInt b1) in
      slice_bytes (Contents f) start (wrap64 (end_ + 1)) = None
  end →
  ∃ fault,
    handler cdn s w req
    = {| w_header := w_header w; w_sent := Some (500, w_header w);
         w_body := w_body w
           ++ [error_body ["internal error: runtime error: " +:+ runtime_text fault]] |}.
Proof.
  intros (Hm & Hf & Hh) Hw Hne Hbad.
  assert (∃ fault, cdn (new_response s w req)
                   = (Panicked (runtime_Error fault), new_response s w req))
    as [fault Hrun].
  { rewrite cdn_run by done. rewrite (cdn_GET_run f h) by done. rewrite Hne.
    rewrite !bind_run.
    destruct (range_tokens h) as [[b0 b1]|] eqn:Ht.
    - rewrite (range_bounds_tokens _ _ _ _ _ Ht).
      destruct (serve_range_panic f _ _ (new_response s w req) Hbad) as [fault ->].
      by exists fault.
    - destruct (range_bounds_missing (Size f) h (new_response s w req) Ht) as [fault ->].
      by exists fault. }
  exists fault.
  rewrite (handler_fault _ _ _ _ _ _ _ Hrun (fault_error _)).
  rewrite WriteError_run by done. reflexivity.
Qed.

(** ** Headers and body of an asset response *)

Ltac canon :=
  repeat match goal with
  | |- context [CanonicalMIMEHeaderKey ?k] =>
      let k' := eval vm_compute in (CanonicalMIMEHeaderKey k) in
      change (CanonicalMIMEHeaderKey k) with k'
  end.

Lemma asset_headers_set (h : Header) (f : CDNFile) (contentLength : Z) :
  asset_headers h f contentLength !! "Content-Length" = Some [fmt_d contentLength]
  ∧ asset_headers h f contentLength !! "Accept-Range" = Some ["bytes"]
  ∧ asset_headers h f contentLength !! "Content-Type" = Some ["application/octet-stream"]
  ∧ asset_headers h f contentLength !! "Content-Disposition"
    = Some ["attachment; filename=" +:+ fmt_q (Filename f)]
  ∧ asset_headers h f contentLength !! "Connection" = Some ["close"].
Proof.
  unfold asset_headers, Header_Set. canon. repeat split; by simplify_map_eq.
Qed.

Lemma asset_headers_other (h : Header) (f : CDNFile) (contentLength : Z) (k : string) :
  k ≠ "Content-Length" → k ≠ "Accept-Range" → k ≠ "Content-Type" →
  k ≠ "Content-Disposition" → k ≠ "Connection" →
  asset_headers h f contentLength !! k = h !! k.
Proof.
  intros. unfold asset_headers, Header_Set. canon.
  by rewrite !lookup_insert_ne.
Qed.

Lemma io_Copy_sent (data : list byte) (w : ResponseWriter) (sent : Z * Header) :
  w_sent w = Some sent →
  io_Copy data w
  = {| w_header := w_header w; w_sent := Some sent; w_body := w_body w ++ bytes_body data |}.
Proof.
  destruct w as [h s b]. simpl. intros ->.
  destruct data; simpl; [by rewrite app_nil_r|done].
Qed.





(* ===================================================================== *)
(** * The dispatch wrapper *)
(* ===================================================================== *)

(** C1 (amended): when a handler fails with a fault that is no abort, before
    anything was sent, the wrapper answers with status 500 and the JSON
    error body whose one message is "internal error: " followed by the
    detail of the fault. *)
Theorem unstructured_fault_response (ch : coolHandler) s w req v detail r' :
  ch (new_response s w req) = (Panicked v, r') →
  unstructured_fault v detail →
  w_sent (r_w r') = None →
  let w' := handler ch s w req in
  resp_status w' = Some 500
  ∧ w_body w' = w_body (r_w r') ++ [error_body ["internal error: " +:+ detail]].
Proof.
  intros Hrun Hv Hsent w'. subst w'.
  rewrite (handler_fault _ _ _ _ _ _ _ Hrun Hv).
  by rewrite WriteError_run.
Qed.

(* ===================================================================== *)
(** * The CDN asset streamer *)
(* ===================================================================== *)




(** C6, as the code has it: every successful asset response carries
    Content-Type, Content-Disposition and Connection as stated, and the
    header Accept-Range (line 271 sets "accept-range"); it does not set
    Accept-Ranges. *)
Theorem cdn_asset_response_headers s w req f h :
  cdn_request s req f h → Unsent w →
  let w' := handler cdn s w req in
  resp_status w' = Some 200 ∨ resp_status w' = Some 206 →
  resp_header w' "Content-Type" = Some ["application/octet-stream"]
  ∧ resp_header w' "Content-Disposition"
    = Some ["attachment; filename=" +:+ fmt_q (Filename f)]
  ∧ resp_header w' "Connection" = Some ["close"]
  ∧ resp_header w' "Accept-Range" = Some ["bytes"]
  ∧ resp_header w' "Accept-Ranges" = w_header w !! "Accept-Ranges".
Proof.
  intros Hreq [Hsent Hbody] w'. subst w'.
  assert (∀ h0 cl (w0 : ResponseWriter) code data,
    w0 = io_Copy data {| w_header := asset_headers h0 f cl;
                         w_sent := Some (code, asset_headers h0 f cl);
                         w_body := w_body w |} →
    h0 !! "Accept-Ranges" = w_header w !! "Accept-Ranges" →
    resp_header w0 "Content-Type" = Some ["application/octet-stream"]
    ∧ resp_header w0 "Content-Disposition"
      = Some ["attachment; filename=" +:+ fmt_q (Filename f)]
    ∧ resp_header w0 "Connection" = Some ["close"]
    ∧ resp_header w0 "Accept-Range" = Some ["bytes"]
    ∧ resp_header w0 "Accept-Ranges" = w_header w !! "Accept-Ranges") as Hheaders.
  { intros h0 cl w0 code data -> Hh0.
    erewrite io_Copy_sent by reflexivity. unfold resp_header. simpl.
    destruct (asset_headers_set h0 f cl) as (_ & Har & Hct & Hcd & Hc).
    repeat split; try done.
    rewrite asset_headers_other by done. done. }
  destruct (String.eqb h "") eqn:Hne.
  - apply String.eqb_eq in Hne as ->. intros _.
    eapply Hheaders; [by apply cdn_full_response|done].
  - destruct (range_tokens h) as [[b0 b1]|] eqn:Ht.
    + destruct (slice_bytes (Contents f) (default 0 (strconv_ParseInt b0))
                  (wrap64 (default (wrap64 (Size f - 1)) (strconv_ParseInt b1) + 1)))
        as [d|] eqn:Hd.
      * intros _. eapply Hheaders; [by eapply cdn_range_response|].
        unfold Header_Set. canon. by rewrite lookup_insert_ne.
      * destruct (cdn_fault_response s w req f h Hreq Hsent Hne) as [fault ->].
        { by rewrite Ht. }
        unfold resp_status. simpl. by intros [|].
    + destruct (cdn_fault_response s w req f h Hreq Hsent Hne) as [fault ->].
      { by rewrite Ht. }
      unfold resp_status. simpl. by intros [|].
Qed.

(* ===================================================================== *)
(** * The API routes *)
(* ===================================================================== *)

Lemma WriteJSON_run (payload : Any) (r : response) :
  r_status r = 0 → w_sent (r_w r) = None →
  WriteJSON payload r
  = (Returned tt,
     set_status 200
       (set_w {| w_header := w_header (r_w r);
                 w_sent := Some (200, w_header (r_w r));
                 w_body := w_body (r_w r) ++ [BodyJSON (Marshal (VMap payload))] |} r)).
Proof.
  destruct r as [s [h sent body] req st0 st u]. simpl. intros -> ->.
  unfold WriteJSON, WriteHeader. by mrun.
Qed.

(** The common start of the API handlers: the API key check and the
    route variable "id". *)
Lemma api_prefix_run (k : Z → M unit) s w req (u : User) (id : Z) :
  authenticated_get s req u id →
  (CheckAPIKey ;; Int64Var "id" ≫= k) (new_response s w req)
  = k id (set_currentUser (Some u) (new_response s w req)).
Proof.
  intros (_ & Hu & v & Hv & Hid).
  rewrite bind_run, (CheckAPIKey_run u) by done.
  rewrite bind_run. by erewrite Int64Var_run.
Qed.

Lemma get_method_run (h : M unit) (r : response) :
  Method (r_req r) = "GET" → RespondTo {[ "GET" := h ]} r = h r.
Proof. intros Hm. apply RespondTo_run. rewrite Hm. apply lookup_singleton_eq. Qed.

(** An abort before anything is sent is answered with its status and its
    messages. *)
Lemma handler_abort_response (ch : coolHandler) s w req status messages r' :
  ch (new_response s w req)
  = (Panicked (PanicError (ErrAPI {| APIError_status := status;
                                     APIError_messages := messages |})), r') →
  status ≠ 0 → w_sent (r_w r') = None →
  handler ch s w req
  = {| w_header := w_header (r_w r'); w_sent := Some (status, w_header (r_w r'));
       w_body := w_body (r_w r') ++ [error_body messages] |}.
Proof.
  intros Hrun Hst Hsent. rewrite (handler_abort _ _ _ _ _ _ Hrun).
  cbn [APIError_status APIError_messages]. by rewrite WriteError_run.
Qed.

(** C2, as the code has it: on /games/{id}/uploads the game is looked up
    with [r.store.FindGame], so for an id that matches no stored Game the
    handler goes on with a nil game: the answer is 500 when
    [CanBeViewedBy] dereferences it, 403 when it returns false and 200
    when it returns true; it is never 404. *)
Theorem games_uploads_absent_game s w req (u : User) (id : Z) :
  authenticated_get s req u id →
  Store_FindGame (server_store s) id = None →
  Unsent w →
  let w' := handler games_uploads s w req in
  match Game_CanBeViewedBy None (Some u) with
  | None => resp_status w' = Some 500
  | Some false => resp_status w' = Some 403
  | Some true =>
      resp_status w' = Some 200
      ∧ w_body w'
        = [BodyJSON (JObject {[ "uploads" :=
             Marshal (value_of_maps (FormatUploads (ListUploadsByGame (server_store s) id))) ]})]
  end
  ∧ resp_status w' ≠ Some 404.
Proof.
  intros Hauth Hgame [Hsent Hbody] w'. subst w'.
  pose proof Hauth as (Hm & _).
  set (r1 := set_currentUser (Some u) (new_response s w req)).
  assert (games_uploads (new_response s w req)
          = match Game_CanBeViewedBy None (Some u) with
            | None => (Panicked (runtime_Error NilDereference), r1)
            | Some false => Throw 403 forbidden r1
            | Some true =>
                WriteJSON {[ "uploads" :=
                  value_of_maps (FormatUploads (ListUploadsByGame (server_store s) id)) ]} r1
            end) as Hrun.
  { unfold games_uploads. rewrite get_method_run by done.
    unfold games_uploads_GET. rewrite (api_prefix_run _ s w req u id) by done. fold r1.
    unfold CanBeViewedBy, AssertAuthorization. mrun. simpl. rewrite Hgame.
    by destruct (Game_CanBeViewedBy None (Some u)) as [[|]|]. }
  destruct (Game_CanBeViewedBy None (Some u)) as [[|]|].
  - rewrite WriteJSON_run in Hrun by done.
    rewrite (handler_returned _ _ _ _ _ Hrun). unfold resp_status. simpl.
    rewrite Hbody, map_fmap_singleton. done.
  - rewrite (handler_abort_response _ _ _ _ _ _ _ Hrun) by done. done.
  - rewrite (handler_fault _ _ _ _ _ _ _ Hrun (fault_error _)).
    rewrite WriteError_run by done. done.
Qed.

(** C8: a download request that reaches a Build lacking the file it asks
    for is answered with status 404, on both routes. *)
Theorem download_of_absent_file_not_found s w req (ch : coolHandler) :
  download_of_absent_file s req ch → Unsent w →
  let w' := handler ch s w req in
  resp_status w' = Some 404
  ∧ ∃ message, w_body w' = [error_body [message]].
Proof.
  intros Habsent [Hsent Hbody] w'. subst w'.
  assert (∃ message, ch (new_response s w req)
            = Throw 404 [message] (set_currentUser
                (ResolveAPIKey (server_store s) req) (new_response s w req)))
    as [message Hrun].
  { destruct Habsent as [u id build upload Hauth Hb Hu Hcan Hfile
                        |u id upload build Hauth Hu Hcan Hst Hb Hfile];
      pose proof Hauth as (Hm & Hkey & _); rewrite Hkey; eexists.
    - unfold builds_download. rewrite get_method_run by done.
      unfold builds_download_GET. rewrite (api_prefix_run _ s w req u id) by done.
      unfold FindBuild, FindUpload, CanBeDownloadedBy, AssertAuthorization, Var.
      mrun. simpl. rewrite Hb, Hu, Hcan, Hfile. reflexivity.
    - unfold uploads_download. rewrite get_method_run by done.
      unfold uploads_download_GET. rewrite (api_prefix_run _ s w req u id) by done.
      unfold FindBuild, FindUpload, CanBeDownloadedBy, AssertAuthorization.
      mrun. simpl. rewrite Hu, Hcan, Hst. simpl. rewrite Hb, Hfile. reflexivity. }
  rewrite (handler_abort_response _ _ _ _ _ _ _ Hrun) by done.
  unfold resp_status. simpl. split; [done|]. rewrite Hbody. by exists message.
Qed.

(** C10: on /uploads/{id}/download, an Upload with storage kind "build" is
    served by [ServeCDNAsset] on the file ("archive", "default") of the
    Build its Head names, whatever else the request holds; a storage kind
    other than "hosted" and "build" is answered with status 500. *)
Theorem uploads_download_by_storage s w req (u : User) (id : Z) (upload : Upload) :
  authenticated_get s req u id →
  Store_FindUpload (server_store s) id = Some upload →
  Upload_CanBeDownloadedBy upload (Some u) = true →
  Unsent w →
  (Storage upload = "build" →
   ∀ build archive,
     Store_FindBuild (server_store s) (Head upload) = Some build →
     GetFile build "archive" "default" = Some archive →
     uploads_download (new_response s w req)
     = ServeCDNAsset (AssetBuildFile archive)
         (set_currentUser (Some u) (new_response s w req)))
  ∧ (Storage upload ≠ "hosted" → Storage upload ≠ "build" →
     let w' := handler uploads_download s w req in
     resp_status w' = Some 500 ∧ w_body w' = [error_body ["unsupported storage"]]).
Proof.
  intros Hauth Hu Hcan [Hsent Hbody]. pose proof Hauth as (Hm & _).
  assert (∀ k : Upload → M unit,
    (CheckAPIKey ;; uploadID ← Int64Var "id"; upload ← FindUpload uploadID;
     authorized ← CanBeDownloadedBy upload; AssertAuthorization authorized ;; k upload)
      (new_response s w req)
    = k upload (set_currentUser (Some u) (new_response s w req))) as Hprefix.
  { intros k. rewrite (api_prefix_run _ s w req u id) by done.
    unfold FindUpload, CanBeDownloadedBy, AssertAuthorization.
    mrun. simpl. by rewrite Hu, Hcan. }
  split.
  - intros Hst build archive Hb Hfile.
    unfold uploads_download. rewrite get_method_run by done.
    unfold uploads_download_GET. rewrite Hprefix. rewrite Hst. simpl.
    unfold FindBuild. mrun. simpl. by rewrite Hb, Hfile.
  - intros Hh Hb w'. subst w'.
    assert (uploads_download (new_response s w req)
            = Throw 500 ["unsupported storage"]
                (set_currentUser (Some u) (new_response s w req))) as Hrun.
    { unfold uploads_download. rewrite get_method_run by done.
      unfold uploads_download_GET. rewrite Hprefix.
      apply String.eqb_neq in Hh, Hb. by rewrite Hh, Hb. }
    rewrite (handler_abort_response _ _ _ _ _ _ _ Hrun) by done.
    unfold resp_status. simpl. by rewrite Hbody.
Qed.

End Dispatch.

(* ===================================================================== *)
(** * Further properties of the wrapper and of the API routes *)
(* ===================================================================== *)


Section Routes.
Context `{RT : Runtime} `{CO : Collaborators}.

Lemma method_run (m : string) (h : M unit) (r : response) :
  Method (r_req r) = m → RespondTo {[ m := h ]} r = h r.
Proof. intros Hm. apply RespondTo_run. rewrite Hm. apply lookup_singleton_eq. Qed.

Lemma CheckAPIKey_fail (r : response) :
  ResolveAPIKey (r_store r) (r_req r) = None →
  CheckAPIKey r = Throw 401 unauthenticated r.
Proof. destruct r; simpl. intros Hu. unfold CheckAPIKey. mrun. by rewrite Hu. Qed.

Lemma Int64Var_fail (name : string) (r : response) :
  strconv_ParseInt (default "" (Vars (r_req r) !! name)) = None →
  Int64Var name r = Throw 400 bad_variable r.
Proof.
  destruct r; simpl. intros Hv. unfold Int64Var, Var. mrun. by rewrite Hv.
Qed.

(** The start of a handler with the variable "id", on a request with a
    valid API key. *)
Lemma id_prefix_run (k : Z → M unit) s w req (u : User) (id : Z) :
  authenticated s req u id →
  (CheckAPIKey ;; Int64Var "id" ≫= k) (new_response s w req)
  = k id (set_currentUser (Some u) (new_response s w req)).
Proof.
  intros (Hu & v & Hv & Hid).
  rewrite bind_run, (CheckAPIKey_run u) by done.
  rewrite bind_run. by erewrite Int64Var_run.
Qed.

(** The response to a handler that aborts before anything is sent. *)
Lemma abort_run_response (ch : coolHandler) s w req status messages r' :
  ch (new_response s w req) = Throw status messages r' →
  status ≠ 0 → r_w r' = w → Unsent w →
  resp_status (handler ch s w req) = Some status
  ∧ w_body (handler ch s w req) = [error_body messages].
Proof.
  intros Hrun Hst <- [Hsent Hbody].
  rewrite (handler_abort_response _ _ _ _ _ _ _ Hrun) by done.
  unfold resp_status. simpl. by rewrite Hbody.
Qed.

(** The response to a handler that faults at a nil pointer before anything
    is sent. *)
Lemma nil_fault_response (ch : coolHandler) s w req r' :
  ch (new_response s w req) = (Panicked (runtime_Error NilDereference), r') →
  r_w r' = w → Unsent w →
  resp_status (handler ch s w req) = Some 500.
Proof.
  intros Hrun <- [Hsent Hbody].
  rewrite (handler_fault _ _ _ _ _ _ _ Hrun (fault_error _)).
  by rewrite WriteError_run.
Qed.

(** The response to a handler that ends by writing a JSON document. *)
Lemma json_run_response (ch : coolHandler) s w req payload r' :
  ch (new_response s w req) = WriteJSON payload r' →
  r_status r' = 0 → r_w r' = w → Unsent w →
  resp_status (handler ch s w req) = Some 200
  ∧ w_body (handler ch s w req) = [BodyJSON (Marshal (VMap payload))].
Proof.
  intros Hrun Hst <- [Hsent Hbody].
  rewrite WriteJSON_run in Hrun by done.
  rewrite (handler_returned _ _ _ _ _ Hrun). unfold resp_status. simpl.
  by rewrite Hbody.
Qed.

(** X1: a handler that aborts with [Throw(status, messages...)] before
    anything is sent is answered with that status and the JSON error body
    of those messages, after what the handler had written to the body. *)
Theorem abort_is_answered_with_its_status (ch : coolHandler) s w req status messages r' :
  ch (new_response s w req) = Throw status messages r' →
  status ≠ 0 → w_sent (r_w r') = None →
  let w' := handler ch s w req in
  resp_status w' = Some status
  ∧ w_body w' = w_body (r_w r') ++ [error_body messages].
Proof.
  intros Hrun Hst Hsent w'. subst w'.
  by rewrite (handler_abort_response _ _ _ _ _ _ _ Hrun).
Qed.

(** X2: the handler of "/" answers every request, whatever its method and
    credentials, with status 404 and the message "invalid api endpoint". *)
Theorem not_found_response s w req :
  Unsent w →
  let w' := handler not_found s w req in
  resp_status w' = Some 404 ∧ w_body w' = [error_body ["invalid api endpoint"]].
Proof. intros Hw. by apply (abort_run_response _ _ _ _ 404 _ (new_response s w req)). Qed.

(** X3: on each of the six API routes, a request with no valid API key is
    answered with status 401 before any path variable is read or any
    entity is looked up. *)
Theorem unauthenticated_request_is_401 (has_id : bool) (m : string) (ch : coolHandler) s w req :
  api_route has_id m ch →
  Method req = m →
  ResolveAPIKey (server_store s) req = None →
  Unsent w →
  let w' := handler ch s w req in
  resp_status w' = Some 401 ∧ w_body w' = [error_body unauthenticated].
Proof.
  intros Hroute Hm Hkey Hw.
  apply (abort_run_response _ _ _ _ 401 _ (new_response s w req)); try done.
  destruct Hroute;
    (etransitivity; [by apply method_run|]);
    [unfold profile_GET|unfold games_GET|unfold games_uploads_GET
    |unfold games_download_sessions_POST|unfold uploads_download_GET
    |unfold builds_download_GET];
    by rewrite bind_run, CheckAPIKey_fail.
Qed.

(** X4: on each of the five API routes with the variable "id", a request
    with a valid API key whose "id" is no int64 in decimal (no digits, a
    stray character, a value out of range) is answered with status 400
    before any entity is looked up. *)
Theorem malformed_id_is_400 (m : string) (ch : coolHandler) s w req (u : User) :
  api_route true m ch →
  Method req = m →
  ResolveAPIKey (server_store s) req = Some u →
  strconv_ParseInt (default "" (Vars req !! "id")) = None →
  Unsent w →
  let w' := handler ch s w req in
  resp_status w' = Some 400 ∧ w_body w' = [error_body bad_variable].
Proof.
  intros Hroute Hm Hkey Hid Hw.
  apply (abort_run_response _ _ _ _ 400 _
           (set_currentUser (Some u) (new_response s w req))); try done.
  inversion Hroute; subst;
    (etransitivity; [by apply method_run|]);
    [unfold games_GET|unfold games_uploads_GET
    |unfold games_download_sessions_POST|unfold uploads_download_GET
    |unfold builds_download_GET];
    rewrite bind_run, (CheckAPIKey_run u) by done;
    by rewrite bind_run, Int64Var_fail.
Qed.

(** X5: /profile answers a request with a valid API key with status 200
    and the document [{user: FormatUser(u)}] of the key's user. *)
Theorem profile_response s w req (u : User) :
  Method req = "GET" →
  ResolveAPIKey (server_store s) req = Some u →
  Unsent w →
  let w' := handler profile s w req in
  resp_status w' = Some 200
  ∧ w_body w' = [BodyJSON (JObject {[ "user" := Marshal (VMap (FormatUser u)) ]})].
Proof.
  intros Hm Hkey Hw w'. subst w'.
  rewrite <- (map_fmap_singleton Marshal "user" (VMap (FormatUser u))).
  apply (json_run_response _ _ _ _ _ (set_currentUser (Some u) (new_response s w req)));
    try done.
  unfold profile. rewrite method_run by done.
  unfold profile_GET. by rewrite bind_run, (CheckAPIKey_run u).
Qed.

(** X6: /games/{id} answers an authenticated request with 404 when the
    store has no such game, and otherwise as [CanBeViewedBy] decides: 200
    with [{game: FormatGame(game)}] when it holds, 403 when it does not. *)
Theorem games_response s w req (u : User) (id : Z) :
  authenticated_get s req u id →
  Unsent w →
  let w' := handler games s w req in
  match Store_FindGame (server_store s) id with
  | None => resp_status w' = Some 404 ∧ w_body w' = [error_body ["not found"]]
  | Some game =>
      match Game_CanBeViewedBy (Some game) (Some u) with
      | Some true =>
          resp_status w' = Some 200
          ∧ w_body w' = [BodyJSON (JObject {[ "game" := Marshal (VMap (FormatGame game)) ]})]
      | Some false => resp_status w' = Some 403 ∧ w_body w' = [error_body forbidden]
      | None => resp_status w' = Some 500
      end
  end.
Proof.
  intros Hauth Hw w'. subst w'. pose proof Hauth as (Hm & _).
  set (r1 := set_currentUser (Some u) (new_response s w req)).
  assert (games (new_response s w req)
          = match Store_FindGame (server_store s) id with
            | None => Throw 404 ["not found"] r1
            | Some game =>
                match Game_CanBeViewedBy (Some game) (Some u) with
                | Some true => WriteJSON {[ "game" := VMap (FormatGame game) ]} r1
                | Some false => Throw 403 forbidden r1
                | None => (Panicked (runtime_Error NilDereference), r1)
                end
            end) as Hrun.
  { unfold games. rewrite get_method_run by done.
    unfold games_GET. rewrite (api_prefix_run _ s w req u id) by done. subst r1.
    unfold FindGame, CanBeViewedBy, AssertAuthorization. mrun. simpl.
    destruct (Store_FindGame (server_store s) id) as [game|]; [|done].
    by destruct (Game_CanBeViewedBy (Some game) (Some u)) as [[|]|]. }
  destruct (Store_FindGame (server_store s) id) as [game|].
  - destruct (Game_CanBeViewedBy (Some game) (Some u)) as [[|]|].
    + rewrite <- (map_fmap_singleton Marshal "game" (VMap (FormatGame game))).
      by apply (json_run_response _ _ _ _ _ r1).
    + by apply (abort_run_response _ _ _ _ 403 _ r1).
    + by apply (nil_fault_response _ _ _ _ r1).
  - by apply (abort_run_response _ _ _ _ 404 _ r1).
Qed.

(** X7: /games/{id}/uploads answers an authenticated request for a stored
    game that the user may view with status 200 and the Uploads the store
    lists for the id, each formatted by [FormatUpload], in the store's
    order; with no Upload the field is [null]. *)
Theorem games_uploads_listing s w req (u : User) (id : Z) (game : Game) :
  authenticated_get s req u id →
  Store_FindGame (server_store s) id = Some game →
  Game_CanBeViewedBy (Some game) (Some u) = Some true →
  Unsent w →
  let w' := handler games_uploads s w req in
  resp_status w' = Some 200
  ∧ w_body w'
    = [BodyJSON (JObject {[ "uploads" := uploads_json (ListUploadsByGame (server_store s) id) ]})].
Proof.
  intros Hauth Hgame Hview Hw w'. subst w'. pose proof Hauth as (Hm & _).
  set (uploads := ListUploadsByGame (server_store s) id).
  assert (uploads_json uploads = Marshal (value_of_maps (FormatUploads uploads))) as ->.
  { unfold uploads_json, value_of_maps, FormatUploads.
    rewrite fold_append_uploads. destruct uploads as [|u0 us]; [done|].
    cbn [default app fmap option_fmap option_map Marshal].
    by rewrite !map_map. }
  rewrite <- (map_fmap_singleton Marshal "uploads").
  apply (json_run_response _ _ _ _ _ (set_currentUser (Some u) (new_response s w req)));
    try done.
  unfold games_uploads. rewrite get_method_run by done.
  unfold games_uploads_GET. rewrite (api_prefix_run _ s w req u id) by done.
  unfold CanBeViewedBy, AssertAuthorization. mrun. simpl.
  by rewrite Hgame, Hview.
Qed.

(** X8: /games/{id}/download-sessions answers an authenticated POST as
    [CanBeViewedBy] decides on what [r.store.FindGame] returns, a nil game
    included: 200 with a fresh UUID when it holds, 403 when it does not,
    500 when it dereferences the nil game; the status is never 404. *)
Theorem download_sessions_response s w req (u : User) (id : Z) :
  Method req = "POST" →
  authenticated s req u id →
  Unsent w →
  let w' := handler games_download_sessions s w req in
  match Game_CanBeViewedBy (Store_FindGame (server_store s) id) (Some u) with
  | Some true =>
      resp_status w' = Some 200
      ∧ w_body w' = [BodyJSON (JObject {[ "uuid" := JString uuid_New ]})]
  | Some false => resp_status w' = Some 403 ∧ w_body w' = [error_body forbidden]
  | None => resp_status w' = Some 500
  end
  ∧ resp_status w' ≠ Some 404.
Proof.
  intros Hm Hauth Hw w'. subst w'.
  set (r1 := set_currentUser (Some u) (new_response s w req)).
  assert (games_download_sessions (new_response s w req)
          = match Game_CanBeViewedBy (Store_FindGame (server_store s) id) (Some u) with
            | Some true => WriteJSON {[ "uuid" := VString uuid_New ]} r1
            | Some false => Throw 403 forbidden r1
            | None => (Panicked (runtime_Error NilDereference), r1)
            end) as Hrun.
  { unfold games_download_sessions. rewrite method_run by done.
    unfold games_download_sessions_POST. rewrite (id_prefix_run _ s w req u id) by done.
    subst r1. unfold CanBeViewedBy, AssertAuthorization. mrun. simpl.
    by destruct (Game_CanBeViewedBy _ (Some u)) as [[|]|]. }
  destruct (Game_CanBeViewedBy _ (Some u)) as [[|]|].
  - destruct (json_run_response _ _ _ _ _ r1 Hrun) as [Hs Hb]; try done.
    rewrite Hs, Hb. simpl. by rewrite map_fmap_singleton.
  - destruct (abort_run_response _ _ _ _ 403 _ r1 Hrun) as [Hs Hb]; try done.
    by rewrite Hs, Hb.
  - by rewrite (nil_fault_response _ _ _ _ r1 Hrun).
Qed.

(** ** The download routes *)

(** [/uploads/{id}/download] past the lookup of the Upload and the
    authorization check. *)
Lemma uploads_download_run s w req (u : User) (id : Z) :
  authenticated_get s req u id →
  uploads_download (new_response s w req)
  = let r1 := set_currentUser (Some u) (new_response s w req) in
    match Store_FindUpload (server_store s) id with
    | None => Throw 404 ["not found"] r1
    | Some upload =>
        if Upload_CanBeDownloadedBy upload (Some u) then
          (if String.eqb (Storage upload) "hosted" then
             ServeCDNAsset (AssetUpload upload)
           else if String.eqb (Storage upload) "build" then
             build ← FindBuild (Head upload);
             match GetFile build "archive" "default" with
             | None => Throw 404 ["no archive for build"]
             | Some archive => ServeCDNAsset (AssetBuildFile archive)
             end
           else Throw 500 ["unsupported storage"]) r1
        else Throw 403 forbidden r1
    end.
Proof.
  intros Hauth. pose proof Hauth as (Hm & _).
  unfold uploads_download. rewrite get_method_run by done.
  unfold uploads_download_GET. rewrite (api_prefix_run _ s w req u id) by done.
  unfold FindUpload, CanBeDownloadedBy, AssertAuthorization. mrun. simpl.
  destruct (Store_FindUpload (server_store s) id) as [upload|]; [|done].
  by destruct (Upload_CanBeDownloadedBy upload (Some u)).
Qed.

(** [/builds/{id}/download/{type}/{subtype}] past the lookups and the
    authorization check. *)
Lemma builds_download_run s w req (u : User) (id : Z) :
  authenticated_get s req u id →
  builds_download (new_response s w req)
  = let r1 := set_currentUser (Some u) (new_response s w req) in
    match Store_FindBuild (server_store s) id with
    | None => Throw 404 ["not found"] r1
    | Some build =>
        match Store_FindUpload (server_store s) (UploadID build) with
        | None => Throw 404 ["not found"] r1
        | Some upload =>
            if Upload_CanBeDownloadedBy upload (Some u) then
              let typ := default "" (Vars req !! "type") in
              let subtype := default "" (Vars req !! "subtype") in
              match GetFile build typ subtype with
              | None => Throw 404 ["no " +:+ typ +:+ "/" +:+ subtype +:+ " build file"] r1
              | Some bf => ServeCDNAsset (AssetBuildFile bf) r1
              end
            else Throw 403 forbidden r1
        end
    end.
Proof.
  intros Hauth. pose proof Hauth as (Hm & _).
  unfold builds_download. rewrite get_method_run by done.
  unfold builds_download_GET. rewrite (api_prefix_run _ s w req u id) by done.
  unfold FindBuild, FindUpload, CanBeDownloadedBy, AssertAuthorization, Var. mrun. simpl.
  destruct (Store_FindBuild (server_store s) id) as [build|]; [|done].
  destruct (Store_FindUpload (server_store s) (UploadID build)) as [upload|]; [|done].
  destruct (Upload_CanBeDownloadedBy upload (Some u)); [|done].
  by destruct (GetFile build _ _).
Qed.

(** X9: on /uploads/{id}/download, an Upload with storage kind "hosted"
    that the user may download is handed to [ServeCDNAsset] itself. *)
Theorem uploads_download_hosted s w req (u : User) (id : Z) (upload : Upload) :
  authenticated_get s req u id →
  Store_FindUpload (server_store s) id = Some upload →
  Upload_CanBeDownloadedBy upload (Some u) = true →
  Storage upload = "hosted" →
  uploads_download (new_response s w req)
  = ServeCDNAsset (AssetUpload upload)
      (set_currentUser (Some u) (new_response s w req)).
Proof.
  intros Hauth Hu Hcan Hst.
  rewrite (uploads_download_run s w req u id Hauth). cbv zeta.
  by rewrite Hu, Hcan, Hst.
Qed.

(** X10: on /builds/{id}/download/{type}/{subtype}, when the Build has a
    file for the pair of the route variables "type" and "subtype", that
    file is handed to [ServeCDNAsset]; the authorization asked for is that
    of the Upload the Build belongs to. *)
Theorem builds_download_serves_pair s w req (u : User) (id : Z)
    (build : Build) (upload : Upload) (bf : BuildFile) :
  authenticated_get s req u id →
  Store_FindBuild (server_store s) id = Some build →
  Store_FindUpload (server_store s) (UploadID build) = Some upload →
  Upload_CanBeDownloadedBy upload (Some u) = true →
  GetFile build (default "" (Vars req !! "type")) (default "" (Vars req !! "subtype")) = Some bf →
  builds_download (new_response s w req)
  = ServeCDNAsset (AssetBuildFile bf)
      (set_currentUser (Some u) (new_response s w req)).
Proof.
  intros Hauth Hb Hu Hcan Hfile.
  rewrite (builds_download_run s w req u id Hauth). cbv zeta.
  by rewrite Hb, Hu, Hcan, Hfile.
Qed.

(** X11: a download request of a user who may not download the Upload is
    answered with status 403 on both routes, whatever the storage kind of
    the Upload and whether or not the Build has the file asked for. *)
Theorem forbidden_download_is_403 s w req (ch : coolHandler) :
  forbidden_download s req ch → Unsent w →
  let w' := handler ch s w req in
  resp_status w' = Some 403 ∧ w_body w' = [error_body forbidden].
Proof.
  intros Hforbidden Hw.
  destruct Hforbidden as [u id build upload Hauth Hb Hu Hcan|u id upload Hauth Hu Hcan].
  - apply (abort_run_response _ _ _ _ 403 _
             (set_currentUser (Some u) (new_response s w req))); try done.
    rewrite (builds_download_run s w req u id Hauth). cbv zeta.
    by rewrite Hb, Hu, Hcan.
  - apply (abort_run_response _ _ _ _ 403 _
             (set_currentUser (Some u) (new_response s w req))); try done.
    rewrite (uploads_download_run s w req u id Hauth). cbv zeta.
    by rewrite Hu, Hcan.
Qed.

(** X12: a download request that names an Upload or a Build the store
    does not hold (the entity of the route, the Upload a Build belongs to,
    or the head Build of an Upload with storage kind "build") is answered
    with status 404 and the message "not found". *)
Theorem download_of_missing_entity_is_404 s w req (ch : coolHandler) :
  download_of_missing_entity s req ch → Unsent w →
  let w' := handler ch s w req in
  resp_status w' = Some 404 ∧ w_body w' = [error_body ["not found"]].
Proof.
  intros Hmissing Hw.
  destruct Hmissing as [u id Hauth Hu|u id upload Hauth Hu Hcan Hst Hb
                       |u id Hauth Hb|u id build Hauth Hb Hu];
    apply (abort_run_response _ _ _ _ 404 _
             (set_currentUser (Some u) (new_response s w req))); try done.
  - rewrite (uploads_download_run s w req u id Hauth). cbv zeta. by rewrite Hu.
  - rewrite (uploads_download_run s w req u id Hauth). cbv zeta.
    rewrite Hu, Hcan, Hst. simpl. unfold FindBuild. mrun. simpl. by rewrite Hb.
  - rewrite (builds_download_run s w req u id Hauth). cbv zeta. by rewrite Hb.
  - rewrite (builds_download_run s w req u id Hauth). cbv zeta. by rewrite Hb, Hu.
Qed.

(** ** The /@cdn route *)

Lemma Split_tokens (s : string) (sep : ascii) :
  Forall (no_byte sep) (strings_Split s sep).
Proof.
  induction s as [|c r IH]; simpl.
  - repeat constructor.
  - destruct (Ascii.eqb_spec c sep) as [->|Hne].
    + constructor; [constructor|done].
    + destruct (strings_Split r sep) as [|t ts]; [repeat constructor; done|].
      apply Forall_cons in IH as [Ht Hts].
      constructor; [by constructor|done].
Qed.

Lemma ParseInt_unsigned (s : string) (v : Z) :
  no_byte "-" s → strconv_ParseInt s = Some v → 0 <= v.
Proof.
  unfold strconv_ParseInt. intros Hs.
  destruct s as [|c r].
  - done.
  - apply Forall_cons in Hs as [Hc _]. apply Ascii.eqb_neq in Hc. rewrite Hc.
    destruct (Ascii.eqb c "+");
      (destruct (NilZero.uint_of_string _) as [d|]; [|done]);
      (destruct (_ && _); [|done]); intros [= <-]; unfold Z.of_uint; lia.
Qed.




(** X13: a GET request under /@cdn with no Range header, for a stored
    file whose [Size] is the length of its [Contents], is answered with
    status 200, the [Size] as Content-Length, no Content-Range header of
    the handler's, and the whole of [Contents], [Size] bytes, as body. *)
Theorem cdn_full_content s w req f :
  cdn_request s req f "" → Size f = len (Contents f) → Unsent w →
  let w' := handler cdn s w req in
  resp_status w' = Some 200
  ∧ resp_header w' "Content-Length" = Some [fmt_d (Size f)]
  ∧ resp_header w' "Content-Range" = w_header w !! "Content-Range"
  ∧ w_body w' = bytes_body (elems (Contents f))
  ∧ Z.of_nat (length (elems (Contents f))) = Size f.
Proof.
  intros Hreq Hsize [Hsent Hbody] w'. subst w'.
  rewrite (cdn_full_response s w req f Hreq Hsent). cbv zeta.
  erewrite io_Copy_sent by reflexivity.
  unfold resp_status, resp_header. simpl.
  destruct (asset_headers_set (w_header w) f (Size f)) as (Hcl & _).
  repeat split; try done.
  - by rewrite asset_headers_other.
  - by rewrite Hbody.
Qed.

Lemma cdn_missing_response s w req :
  Method req = "GET" →
  CDNFiles (server_store s) !! strings_TrimPrefix (URL_Path req) "/@cdn" = None →
  Unsent w →
  resp_status (handler cdn s w req) = Some 404
  ∧ w_body (handler cdn s w req) = [error_body ["not found"]].
Proof.
  intros Hm Hf Hw.
  apply (abort_run_response _ _ _ _ 404 _ (new_response s w req)); try done.
  rewrite cdn_run by done. by apply cdn_GET_missing.
Qed.

(** X14: a GET request under /@cdn whose path, without the prefix, names
    no stored file is answered with status 404 and the message "not
    found", whatever its Range header. *)
Theorem cdn_missing_file s w req :
  Method req = "GET" →
  CDNFiles (server_store s) !! strings_TrimPrefix (URL_Path req) "/@cdn" = None →
  Unsent w →
  let w' := handler cdn s w req in
  resp_status w' = Some 404 ∧ w_body w' = [error_body ["not found"]].
Proof. intros Hm Hf Hw. by apply cdn_missing_response. Qed.

(** X15: the answer to a GET request under /@cdn does not depend on the
    collaborators: no API key is checked and no capability is asked for. *)
Theorem cdn_needs_no_credentials (co1 co2 : Collaborators) s w req :
  Method req = "GET" →
  handler (cdn (CO:=co1)) s w req = handler (cdn (CO:=co2)) s w req.
Proof.
  intros Hm. unfold handler.
  by rewrite (cdn_run (CO:=co1)), (cdn_run (CO:=co2)).
Qed.

(** X16: a GET request under /@cdn on a response of which nothing was sent
    is answered with 404 when the file is not stored, with 200 when it is
    and the request has no Range header, and with 206 or 500 when it has
    one. *)
Theorem cdn_status s w req :
  Method req = "GET" → Unsent w →
  let w' := handler cdn s w req in
  match CDNFiles (server_store s) !! strings_TrimPrefix (URL_Path req) "/@cdn" with
  | None => resp_status w' = Some 404
  | Some f =>
      if String.eqb (Header_Get (Request_Header req) "Range") ""
      then resp_status w' = Some 200
      else resp_status w' = Some 206 ∨ resp_status w' = Some 500
  end.
Proof.
  intros Hm Hw w'. subst w'.
  destruct (CDNFiles _ !! _) as [f|] eqn:Hf.
  - set (h := Header_Get (Request_Header req) "Range").
    assert (cdn_request s req f h) as Hreq by done.
    destruct Hw as [Hsent Hbody].
    destruct (String.eqb h "") eqn:Hne.
    + apply String.eqb_eq in Hne. rewrite Hne in Hreq.
      rewrite (cdn_full_response s w req f Hreq Hsent). cbv zeta.
      by erewrite io_Copy_sent by reflexivity.
    + destruct (range_tokens h) as [[b0 b1]|] eqn:Ht.
      * destruct (slice_bytes (Contents f) (default 0 (strconv_ParseInt b0))
                    (wrap64 (default (wrap64 (Size f - 1)) (strconv_ParseInt b1) + 1)))
          as [d|] eqn:Hd.
        -- left. rewrite (cdn_range_response s w req f h b0 b1 d Hreq Hsent Ht Hd).
           cbv zeta. by erewrite io_Copy_sent by reflexivity.
        -- right. destruct (cdn_fault_response s w req f h Hreq Hsent Hne) as [fault ->];
             [by rewrite Ht|done].
      * right. destruct (cdn_fault_response s w req f h Hreq Hsent Hne) as [fault ->];
          [by rewrite Ht|done].
  - by apply cdn_missing_response.
Qed.


(** X18: the unit of a Range header is not read: whatever stands before
    the first "=" (nothing at all included), the bounds are those of
    "bytes=" with the same rest. *)
Theorem range_unit_is_ignored (size : Z) (unit_ rest : string) (r : response) :
  no_byte "=" unit_ →
  range_bounds size (unit_ +:+ String "=" rest) r
  = range_bounds size ("bytes=" +:+ rest) r.
Proof.
  intros Hu. unfold range_bounds.
  change ("bytes=" +:+ rest) with ("bytes" +:+ String "=" rest).
  rewrite !Split_app; [done|by repeat constructor|done].
Qed.



(** X21: whatever the Range header, the bounds the handler computes have a
    start between 0 and the largest int64, and an end that is either
    parsed, and then not negative, or the default [size - 1]; the response
    is left untouched. *)
Theorem range_bounds_start_not_negative (size : Z) (h : string) (r r' : response)
    (start end_ : Z) :
  range_bounds size h r = (Returned (start, end_), r') →
  0 <= start < 2 ^ 63
  ∧ (0 <= end_ < 2 ^ 63 ∨ end_ = wrap64 (size - 1))
  ∧ r' = r.
Proof.
  unfold range_bounds, index. mrun.
  destruct (strings_Split h "=") as [|t0 [|t ts]]; cbn; try done.
  pose proof (Split_tokens t "-") as Htok.
  destruct (strings_Split t "-") as [|b0 [|b1 bs]]; cbn; try done.
  apply Forall_cons in Htok as [Hb0 Htok]. apply Forall_cons in Htok as [Hb1 _].
  intros [= <- <- <-]. split; [|split; [|done]].
  - destruct (strconv_ParseInt b0) as [v|] eqn:Hp; simpl; [|lia].
    pose proof (ParseInt_unsigned _ _ Hb0 Hp).
    apply ParseInt_range in Hp. unfold in_int64 in Hp. lia.
  - destruct (strconv_ParseInt b1) as [v|] eqn:Hp; simpl; [left|by right].
    pose proof (ParseInt_unsigned _ _ Hb1 Hp).
    apply ParseInt_range in Hp. unfold in_int64 in Hp. lia.
Qed.

End Routes.

(* ===================================================================== *)
(** * Further properties of the formatters and of the options *)
(* ===================================================================== *)

(** X22: [FormatUser] writes the key "allow_telemetry" exactly for a user
    who allows telemetry, and then with the value [true]; the other eight
    keys are always there. *)
Theorem FormatUser_allow_telemetry (u : User) :
  (FormatUser u !! "allow_telemetry" = Some (VBool true) ↔ AllowTelemetry u = true)
  ∧ (FormatUser u !! "allow_telemetry" = None ↔ AllowTelemetry u = false)
  ∧ dom (FormatUser u)
    = (if AllowTelemetry u then {[ "allow_telemetry" ]} else ∅)
      ∪ {[ "id"; "gamer"; "developer"; "press_user"; "display_name"; "username";
           "url"; "cover_url" ]}.
Proof.
  unfold FormatUser. destruct (AllowTelemetry u); repeat split; done.
Qed.

Lemma NewServer_opts_snoc (options : list ServerOpt) (o : ServerOpt) :
  NewServer_opts (options ++ [o]) = o (NewServer_opts options).
Proof. unfold NewServer_opts. by rewrite fold_left_app. Qed.

(** X23: the options of [NewServer] apply in order, so the port is that of
    the last [WithPort], and 0 (a port the system picks) with no option;
    the server listens on the loopback address with that port. *)
Theorem NewServer_last_port_wins (ports : list Z) :
  NewServer_opts (map WithPort ports) = {| port := default 0 (last ports) |}
  ∧ start_addr (NewServer_opts (map WithPort ports))
    = "127.0.0.1:" +:+ fmt_d (default 0 (last ports))
  ∧ ∀ (options : list ServerOpt) (p : Z),
      port (NewServer_opts (options ++ [WithPort p])) = p.
Proof.
  assert (NewServer_opts (map WithPort ports) = {| port := default 0 (last ports) |}) as H.
  { induction ports as [|p ports _] using rev_ind; [done|].
    rewrite map_app. simpl. by rewrite NewServer_opts_snoc, last_snoc. }
  split; [done|]. split; [by rewrite H|].
  intros options p. by rewrite NewServer_opts_snoc.
Qed.

(* ===================================================================== *)
(** * The properties on the sample data *)
(* ===================================================================== *)

#[local] Existing Instance sample_runtime.
#[local] Existing Instance sample_collaborators.

(** GET /@cdn/a.zip with "Range: bytes" faults at [rangeTokens[1]], and
    with "Range: bytes=3-10" at the slice expression: each response
    carries the text of its fault. *)
Lemma fault_detail_in_response_body :
  w_body (handler cdn sample_server fresh_writer (sample_cdn_request "/a.zip" "bytes"))
  = [error_body ["internal error: runtime error: index out of range [1] with length 1"]]
  ∧ w_body (handler cdn sample_server fresh_writer (sample_cdn_request "/a.zip" "bytes=3-10"))
    = [error_body ["internal error: runtime error: slice bounds out of range [:11] with capacity 10"]]
  ∧ w_body (handler cdn sample_server fresh_writer (sample_cdn_request "/a.zip" "bytes"))
    ≠ w_body (handler cdn sample_server fresh_writer (sample_cdn_request "/a.zip" "bytes=3-10")).
Proof. repeat split; vm_compute; [reflexivity..|discriminate]. Qed.

Lemma unstructured_fault_response_sample :
  let w' := handler cdn sample_server fresh_writer (sample_cdn_request "/a.zip" "bytes") in
  resp_status w' = Some 500
  ∧ w_body w'
    = [error_body ["internal error: runtime error: index out of range [1] with length 1"]].
Proof.
  apply (unstructured_fault_response cdn sample_server fresh_writer
           (sample_cdn_request "/a.zip" "bytes")
           (runtime_Error (IndexOutOfRange 1 1))
           "runtime error: index out of range [1] with length 1"
           (new_response sample_server fresh_writer (sample_cdn_request "/a.zip" "bytes"))).
  - reflexivity.
  - apply fault_error.
  - reflexivity.
Defined.

(** GET /games/42/uploads with a valid API key, on a store with no game. *)
Lemma games_uploads_absent_game_sample :
  let w' := handler games_uploads sample_server fresh_writer
              (sample_api_request "/games/42/uploads" {[ "id" := "42" ]}) in
  resp_status w' = Some 500 ∧ resp_status w' ≠ Some 404.
Proof.
  refine (games_uploads_absent_game sample_server fresh_writer
            (sample_api_request "/games/42/uploads" {[ "id" := "42" ]}) sample_user 42 _ _ _).
  - split; [reflexivity|]. split; [vm_compute; reflexivity|]. exists "42". split; vm_compute; reflexivity.
  - reflexivity.
  - split; reflexivity.
Defined.





(** "Range: bytes=8-11" on the 10 bytes of c.bin, a slice of capacity 12:
    [end] is beyond the size, and the answer is a 206 response with the
    last two bytes of the file and the two spare bytes of the backing
    array. *)
Example range_within_capacity_is_served :
  let w' := handler cdn sample_server_spare fresh_writer
              (sample_cdn_request "/c.bin" "bytes=8-11") in
  Size sample_file_spare = len (Contents sample_file_spare)
  ∧ ¬ (8 <= 11 < Size sample_file_spare)
  ∧ resp_status w' = Some 206
  ∧ resp_header w' "Content-Range" = Some ["bytes 8-11/10"]
  ∧ resp_header w' "Content-Length" = Some ["4"]
  ∧ w_body w' = [BodyBytes [x08; x09; x0a; x0b]].
Proof. repeat split; try (vm_compute; reflexivity). cbn. lia. Qed.


(** GET /@cdn/a.zip with no Range header: the response has Accept-Range,
    and no Accept-Ranges. *)
Lemma cdn_asset_response_headers_sample :
  let w' := handler cdn sample_server fresh_writer (sample_cdn_request "/a.zip" "") in
  resp_header w' "Content-Type" = Some ["application/octet-stream"]
  ∧ resp_header w' "Content-Disposition"
    = Some ["attachment; filename=" +:+ String dquote ("a.zip" +:+ String dquote "")]
  ∧ resp_header w' "Connection" = Some ["close"]
  ∧ resp_header w' "Accept-Range" = Some ["bytes"]
  ∧ resp_header w' "Accept-Ranges" = None.
Proof.
  apply (cdn_asset_response_headers sample_server fresh_writer
           (sample_cdn_request "/a.zip" "") sample_file "").
  - split; [reflexivity|]. split; vm_compute; reflexivity.
  - split; reflexivity.
  - left. vm_compute. reflexivity.
Defined.

(** Build 6 has no file: GET /builds/6/download/archive/default, and GET
    /uploads/4/download for the upload whose head is build 6. *)
Lemma download_of_absent_file_not_found_sample :
  (let w' := handler builds_download sample_server fresh_writer
               (sample_api_request "/builds/6/download/archive/default"
                  {[ "id" := "6"; "type" := "archive"; "subtype" := "default" ]}) in
   resp_status w' = Some 404 ∧ ∃ message, w_body w' = [error_body [message]])
  ∧ (let w' := handler uploads_download sample_server fresh_writer
                 (sample_api_request "/uploads/4/download" {[ "id" := "4" ]}) in
     resp_status w' = Some 404 ∧ ∃ message, w_body w' = [error_body [message]]).
Proof.
  split.
  - apply (download_of_absent_file_not_found sample_server fresh_writer
             (sample_api_request "/builds/6/download/archive/default"
                {[ "id" := "6"; "type" := "archive"; "subtype" := "default" ]})
             builds_download).
    + apply (absent_pair _ _ sample_user 6 (sample_build 6) (sample_upload 3 "build")).
      * split; [reflexivity|]. split; [vm_compute; reflexivity|]. exists "6". split; vm_compute; reflexivity.
      * vm_compute. reflexivity.
      * vm_compute. reflexivity.
      * vm_compute. reflexivity.
      * vm_compute. reflexivity.
    + split; reflexivity.
  - apply (download_of_absent_file_not_found sample_server fresh_writer
             (sample_api_request "/uploads/4/download" {[ "id" := "4" ]})
             uploads_download).
    + eapply (absent_archive _ _ sample_user 4 _ (sample_build 6)).
      * split; [reflexivity|]. split; [vm_compute; reflexivity|]. exists "4". split; vm_compute; reflexivity.
      * vm_compute. reflexivity.
      * vm_compute. reflexivity.
      * vm_compute. reflexivity.
      * vm_compute. reflexivity.
      * vm_compute. reflexivity.
    + split; reflexivity.
Defined.

(** Upload 3 has storage kind "build" and head 5, upload 7 the storage kind
    "tape". *)
Lemma uploads_download_by_storage_sample :
  (let req := sample_api_request "/uploads/3/download"
                {[ "id" := "3"; "type" := "patch"; "subtype" := "other" ]} in
   uploads_download (new_response sample_server fresh_writer req)
   = ServeCDNAsset (AssetBuildFile {| BuildFile_CDNFile := sample_file |})
       (set_currentUser (Some sample_user) (new_response sample_server fresh_writer req)))
  ∧ (let w' := handler uploads_download sample_server fresh_writer
                 (sample_api_request "/uploads/7/download" {[ "id" := "7" ]}) in
     resp_status w' = Some 500 ∧ w_body w' = [error_body ["unsupported storage"]]).
Proof.
  split.
  - refine (proj1 (uploads_download_by_storage sample_server fresh_writer
              (sample_api_request "/uploads/3/download"
                 {[ "id" := "3"; "type" := "patch"; "subtype" := "other" ]})
              sample_user 3 (sample_upload 3 "build") _ _ _ _)
            _ (sample_build 5) _ _ _).
    + split; [reflexivity|]. split; [vm_compute; reflexivity|].
      exists "3". split; vm_compute; reflexivity.
    + reflexivity.
    + reflexivity.
    + split; reflexivity.
    + reflexivity.
    + reflexivity.
    + vm_compute. reflexivity.
  - refine (proj2 (uploads_download_by_storage sample_server fresh_writer
              (sample_api_request "/uploads/7/download" {[ "id" := "7" ]})
              sample_user 7 (sample_upload 7 "tape") _ _ _ _) _ _).
    + split; [reflexivity|]. split; [vm_compute; reflexivity|].
      exists "7". split; vm_compute; reflexivity.
    + reflexivity.
    + reflexivity.
    + split; reflexivity.
    + discriminate.
    + discriminate.
Defined.

(* ===================================================================== *)
(** * The further properties on the sample data *)
(* ===================================================================== *)

Lemma abort_is_answered_with_its_status_sample :
  let w' := handler not_found sample_server fresh_writer (sample_request "PUT" false ∅) in
  resp_status w' = Some 404 ∧ w_body w' = [] ++ [error_body ["invalid api endpoint"]].
Proof.
  refine (abort_is_answered_with_its_status not_found sample_server fresh_writer
            (sample_request "PUT" false ∅) 404 ["invalid api endpoint"]
            (new_response sample_server fresh_writer (sample_request "PUT" false ∅)) _ _ _).
  - reflexivity.
  - discriminate.
  - reflexivity.
Defined.

Lemma not_found_response_sample :
  let w' := handler not_found sample_server fresh_writer (sample_request "DELETE" true ∅) in
  resp_status w' = Some 404 ∧ w_body w' = [error_body ["invalid api endpoint"]].
Proof.
  refine (not_found_response sample_server fresh_writer (sample_request "DELETE" true ∅) _).
  split; reflexivity.
Defined.

(** GET /games/1 with no API key. *)
Lemma unauthenticated_request_is_401_sample :
  let w' := handler games sample_server_full fresh_writer
              (sample_request "GET" false {[ "id" := "1" ]}) in
  resp_status w' = Some 401 ∧ w_body w' = [error_body ["authentication required"]].
Proof.
  refine (unauthenticated_request_is_401 true "GET" games sample_server_full fresh_writer
            (sample_request "GET" false {[ "id" := "1" ]}) _ _ _ _).
  - apply api_games.
  - reflexivity.
  - vm_compute. reflexivity.
  - split; reflexivity.
Defined.

(** GET /uploads/9223372036854775808/download: the id is one more than the
    largest int64. *)
Lemma malformed_id_is_400_sample :
  let w' := handler uploads_download sample_server_full fresh_writer
              (sample_request "GET" true {[ "id" := "9223372036854775808" ]}) in
  resp_status w' = Some 400 ∧ w_body w' = [error_body ["invalid id"]].
Proof.
  refine (malformed_id_is_400 "GET" uploads_download sample_server_full fresh_writer
            (sample_request "GET" true {[ "id" := "9223372036854775808" ]})
            sample_user _ _ _ _ _).
  - apply api_uploads_download.
  - reflexivity.
  - vm_compute. reflexivity.
  - vm_compute. reflexivity.
  - split; reflexivity.
Defined.

Lemma profile_response_sample :
  let w' := handler profile sample_server fresh_writer (sample_request "GET" true ∅) in
  resp_status w' = Some 200
  ∧ w_body w' = [BodyJSON (JObject {[ "user" := Marshal (VMap (FormatUser sample_user)) ]})].
Proof.
  refine (profile_response sample_server fresh_writer (sample_request "GET" true ∅)
            sample_user _ _ _).
  - reflexivity.
  - vm_compute. reflexivity.
  - split; reflexivity.
Defined.

(** GET /games/1 on the store that holds game 1. *)
Lemma games_response_sample :
  let w' := handler games sample_server_full fresh_writer
              (sample_request "GET" true {[ "id" := "1" ]}) in
  resp_status w' = Some 200
  ∧ w_body w' = [BodyJSON (JObject {[ "game" := Marshal (VMap (FormatGame sample_game)) ]})].
Proof.
  refine (games_response sample_server_full fresh_writer
            (sample_request "GET" true {[ "id" := "1" ]}) sample_user 1 _ _).
  - split; [reflexivity|]. split; [vm_compute; reflexivity|].
    exists "1". split; vm_compute; reflexivity.
  - split; reflexivity.
Defined.

(** GET /games/1/uploads: uploads 3 and 8, in this order. *)
Lemma games_uploads_listing_sample :
  let w' := handler games_uploads sample_server_full fresh_writer
              (sample_request "GET" true {[ "id" := "1" ]}) in
  resp_status w' = Some 200
  ∧ w_body w'
    = [BodyJSON (JObject {[ "uploads" :=
         JArray [Marshal (VMap (FormatUpload (sample_upload 3 "build")));
                 Marshal (VMap (FormatUpload (sample_upload 8 "hosted")))] ]})].
Proof.
  refine (games_uploads_listing sample_server_full fresh_writer
            (sample_request "GET" true {[ "id" := "1" ]}) sample_user 1 sample_game _ _ _ _).
  - split; [reflexivity|]. split; [vm_compute; reflexivity|].
    exists "1". split; vm_compute; reflexivity.
  - reflexivity.
  - reflexivity.
  - split; reflexivity.
Defined.

(** POST /games/42/download-sessions on the store with no game. *)
Lemma download_sessions_response_sample :
  let w' := handler games_download_sessions sample_server fresh_writer
              (sample_request "POST" true {[ "id" := "42" ]}) in
  resp_status w' = Some 500 ∧ resp_status w' ≠ Some 404.
Proof.
  refine (download_sessions_response sample_server fresh_writer
            (sample_request "POST" true {[ "id" := "42" ]}) sample_user 42 _ _ _).
  - reflexivity.
  - split; [vm_compute; reflexivity|]. exists "42". split; vm_compute; reflexivity.
  - split; reflexivity.
Defined.

(** GET /uploads/8/download: upload 8 has the storage kind "hosted". *)
Lemma uploads_download_hosted_sample :
  let req := sample_request "GET" true {[ "id" := "8" ]} in
  uploads_download (new_response sample_server_full fresh_writer req)
  = ServeCDNAsset (AssetUpload (sample_upload 8 "hosted"))
      (set_currentUser (Some sample_user) (new_response sample_server_full fresh_writer req)).
Proof.
  refine (uploads_download_hosted sample_server_full fresh_writer
            (sample_request "GET" true {[ "id" := "8" ]}) sample_user 8
            (sample_upload 8 "hosted") _ _ _ _).
  - split; [reflexivity|]. split; [vm_compute; reflexivity|].
    exists "8". split; vm_compute; reflexivity.
  - reflexivity.
  - reflexivity.
  - reflexivity.
Defined.

(** GET /builds/5/download/archive/default. *)
Lemma builds_download_serves_pair_sample :
  let req := sample_request "GET" true
               {[ "id" := "5"; "type" := "archive"; "subtype" := "default" ]} in
  builds_download (new_response sample_server_full fresh_writer req)
  = ServeCDNAsset (AssetBuildFile {| BuildFile_CDNFile := sample_file |})
      (set_currentUser (Some sample_user) (new_response sample_server_full fresh_writer req)).
Proof.
  refine (builds_download_serves_pair sample_server_full fresh_writer
            (sample_request "GET" true
               {[ "id" := "5"; "type" := "archive"; "subtype" := "default" ]})
            sample_user 5 (sample_build 5) (sample_upload 3 "build") _ _ _ _ _ _).
  - split; [reflexivity|]. split; [vm_compute; reflexivity|].
    exists "5". split; vm_compute; reflexivity.
  - reflexivity.
  - reflexivity.
  - reflexivity.
  - vm_compute. reflexivity.
Defined.

(** With collaborators that let nobody download: GET
    /builds/6/download/archive/default, where build 6 has no file, and GET
    /uploads/7/download, where upload 7 has the storage kind "tape". *)
Lemma forbidden_download_is_403_sample :
  (let w' := handler (builds_download (CO:=strict_collaborators)) sample_server fresh_writer
               (sample_request "GET" true
                  {[ "id" := "6"; "type" := "archive"; "subtype" := "default" ]}) in
   resp_status w' = Some 403 ∧ w_body w' = [error_body ["forbidden"]])
  ∧ (let w' := handler (uploads_download (CO:=strict_collaborators)) sample_server fresh_writer
                 (sample_request "GET" true {[ "id" := "7" ]}) in
     resp_status w' = Some 403 ∧ w_body w' = [error_body ["forbidden"]]).
Proof.
  split.
  - refine (forbidden_download_is_403 (CO:=strict_collaborators) sample_server fresh_writer
              (sample_request "GET" true
                 {[ "id" := "6"; "type" := "archive"; "subtype" := "default" ]})
              builds_download _ _).
    + refine (@forbidden_build sample_runtime strict_collaborators _ _ sample_user 6 (sample_build 6)
                (sample_upload 3 "build") _ _ _ _).
      * split; [reflexivity|]. split; [vm_compute; reflexivity|].
        exists "6". split; vm_compute; reflexivity.
      * reflexivity.
      * reflexivity.
      * reflexivity.
    + split; reflexivity.
  - refine (forbidden_download_is_403 (CO:=strict_collaborators) sample_server fresh_writer
              (sample_request "GET" true {[ "id" := "7" ]}) uploads_download _ _).
    + refine (@forbidden_upload sample_runtime strict_collaborators _ _ sample_user 7
                (sample_upload 7 "tape") _ _ _).
      * split; [reflexivity|]. split; [vm_compute; reflexivity|].
        exists "7". split; vm_compute; reflexivity.
      * reflexivity.
      * reflexivity.
    + split; reflexivity.
Defined.

(** GET /uploads/99/download (no upload 99), GET /uploads/13/download (the
    head 99 of upload 13 is no stored build), GET
    /builds/99/download/archive/default (no build 99) and GET
    /builds/11/download/archive/default (build 11 belongs to upload 12,
    which is not stored). *)
Lemma download_of_missing_entity_is_404_sample :
  let answer (ch : coolHandler) (id : string) :=
    let w' := handler ch sample_server_full fresh_writer
                (sample_request "GET" true {[ "id" := id ]}) in
    resp_status w' = Some 404 ∧ w_body w' = [error_body ["not found"]] in
  answer uploads_download "99" ∧ answer uploads_download "13"
  ∧ answer builds_download "99" ∧ answer builds_download "11".
Proof.
  assert (∀ (id : string) (n : Z),
            strconv_ParseInt id = Some n →
            authenticated_get sample_server_full
              (sample_request "GET" true {[ "id" := id ]}) sample_user n) as Hauth.
  { intros id n Hn. split; [reflexivity|]. split; [vm_compute; reflexivity|].
    exists id. split; [apply lookup_singleton_eq|exact Hn]. }
  split; [|split; [|split]].
  - refine (download_of_missing_entity_is_404 sample_server_full fresh_writer
              (sample_request "GET" true {[ "id" := "99" ]}) uploads_download _ _).
    + apply (missing_upload _ _ sample_user 99); [by apply Hauth|reflexivity].
    + split; reflexivity.
  - refine (download_of_missing_entity_is_404 sample_server_full fresh_writer
              (sample_request "GET" true {[ "id" := "13" ]}) uploads_download _ _).
    + eapply (missing_head _ _ sample_user 13); [by apply Hauth|reflexivity..].
    + split; reflexivity.
  - refine (download_of_missing_entity_is_404 sample_server_full fresh_writer
              (sample_request "GET" true {[ "id" := "99" ]}) builds_download _ _).
    + apply (missing_build _ _ sample_user 99); [by apply Hauth|reflexivity].
    + split; reflexivity.
  - refine (download_of_missing_entity_is_404 sample_server_full fresh_writer
              (sample_request "GET" true {[ "id" := "11" ]}) builds_download _ _).
    + eapply (missing_upload_of_build _ _ sample_user 11); [by apply Hauth|reflexivity..].
    + split; reflexivity.
Defined.

(** GET /@cdn/a.zip with no Range header. *)
Lemma cdn_full_content_sample :
  let w' := handler cdn sample_server fresh_writer (sample_cdn_request "/a.zip" "") in
  resp_status w' = Some 200
  ∧ resp_header w' "Content-Length" = Some ["10"]
  ∧ resp_header w' "Content-Range" = None
  ∧ w_body w' = [BodyBytes [x00; x01; x02; x03; x04; x05; x06; x07; x08; x09]]
  ∧ Z.of_nat (length (elems (Contents sample_file))) = 10.
Proof.
  refine (cdn_full_content sample_server fresh_writer (sample_cdn_request "/a.zip" "")
            sample_file _ _ _).
  - split; [reflexivity|]. split; vm_compute; reflexivity.
  - reflexivity.
  - split; reflexivity.
Defined.

(** GET /@cdn/missing/path with a Range header. *)
Lemma cdn_missing_file_sample :
  let w' := handler cdn sample_server fresh_writer
              (sample_cdn_request "/missing/path" "bytes=0-1") in
  resp_status w' = Some 404 ∧ w_body w' = [error_body ["not found"]].
Proof.
  refine (cdn_missing_file sample_server fresh_writer
            (sample_cdn_request "/missing/path" "bytes=0-1") _ _ _).
  - reflexivity.
  - vm_compute. reflexivity.
  - split; reflexivity.
Defined.

(** GET /@cdn/a.zip with no API key, under the sample collaborators and
    under those that let nobody download. *)
Lemma cdn_needs_no_credentials_sample :
  handler (cdn (CO:=sample_collaborators)) sample_server fresh_writer
    (sample_cdn_request "/a.zip" "bytes=2-4")
  = handler (cdn (CO:=strict_collaborators)) sample_server fresh_writer
      (sample_cdn_request "/a.zip" "bytes=2-4").
Proof.
  refine (cdn_needs_no_credentials sample_collaborators strict_collaborators
            sample_server fresh_writer (sample_cdn_request "/a.zip" "bytes=2-4") _).
  reflexivity.
Defined.

(** GET /@cdn/a.zip with "Range: bytes=2-4". *)
Lemma cdn_status_sample :
  let w' := handler cdn sample_server fresh_writer (sample_cdn_request "/a.zip" "bytes=2-4") in
  resp_status w' = Some 206 ∨ resp_status w' = Some 500.
Proof.
  refine (cdn_status sample_server fresh_writer (sample_cdn_request "/a.zip" "bytes=2-4") _ _).
  - reflexivity.
  - split; reflexivity.
Defined.


(** "Range: items=2-4" and "Range: =2-4". *)
Lemma range_unit_is_ignored_sample :
  let r := new_response sample_server fresh_writer (sample_cdn_request "/a.zip" "items=2-4") in
  range_bounds 10 "items=2-4" r = range_bounds 10 "bytes=2-4" r
  ∧ range_bounds 10 "=2-4" r = range_bounds 10 "bytes=2-4" r.
Proof.
  split.
  - refine (range_unit_is_ignored 10 "items" "2-4" _ _). repeat constructor; discriminate.
  - refine (range_unit_is_ignored 10 "" "2-4" _ _). constructor.
Defined.



(** "Range: bytes=+2-" on a file of 10 bytes: the bounds 2 and 9. *)
Lemma range_bounds_start_not_negative_sample :
  0 <= 2 < 2 ^ 63
  ∧ (0 <= 9 < 2 ^ 63 ∨ 9 = wrap64 (10 - 1))
  ∧ new_response sample_server fresh_writer (sample_cdn_request "/a.zip" "bytes=+2-")
    = new_response sample_server fresh_writer (sample_cdn_request "/a.zip" "bytes=+2-").
Proof.
  refine (range_bounds_start_not_negative 10 "bytes=+2-"
            (new_response sample_server fresh_writer (sample_cdn_request "/a.zip" "bytes=+2-"))
            _ 2 9 _).
  reflexivity.
Defined.
